(** * Vending machine control core (VENDING1.PY)

    A shallow embedding of the shelf, the inventory and the transaction
    controller of VENDING1.PY, followed by the properties of the controller
    that the specification states.

    Python objects are records, methods are functions in a small monad that
    threads the receiver ([self]), may raise, and collects what is printed.
    A mutation made before a [raise] survives the exception, as in Python. *)

From Stdlib Require Import ZArith List String Bool Lia.
From Stdlib Require Import DecimalString.
Import ListNotations.
Local Open Scope string_scope.
Local Open Scope Z_scope.
Local Open Scope list_scope.

(** ** Enumerations and exceptions *)

(** [class ItemType(Enum)] *)
Inductive ItemType : Type := COKE | PEPSI | JUICE | SODA.

Definition ItemType_value (t : ItemType) : string :=
  match t with
  | COKE => "Coke"
  | PEPSI => "Pepsi"
  | JUICE => "Juice"
  | SODA => "Soda"
  end.

(** [class Coin(Enum)] *)
Inductive Coin : Type := ONE | TWO | FIVE | TEN.

Definition Coin_value (c : Coin) : Z :=
  match c with
  | ONE => 1
  | TWO => 2
  | FIVE => 5
  | TEN => 10
  end.

Definition Coin_name (c : Coin) : string :=
  match c with
  | ONE => "ONE"
  | TWO => "TWO"
  | FIVE => "FIVE"
  | TEN => "TEN"
  end.

(** The source raises plain [Exception(msg)] with five different messages.
    Each message is a constructor; [str_exn] gives the text back.

    - [OutOfStock]: "Item out of stock" (ItemShelf.remove_item)
    - [InvalidShelfCode]: "Invalid shelf code" (Inventory.add_item, get_item)
    - [InvalidStateInsert]: "Can't insert coins in current state"
    - [InvalidStateSelect]: "Insert coins before selecting item"
    - [InsufficientFunds price paid]: "Insufficient funds. Price: .., Paid: .."

    The specification calls the third and the fourth
    [InvalidStateTransition]. *)
Inductive exn : Type :=
  | OutOfStock
  | InvalidShelfCode
  | InvalidStateInsert
  | InvalidStateSelect
  | InsufficientFunds (price paid : Z).

(** Python's [str] of an [int]. *)
Definition str_int (z : Z) : string := NilZero.string_of_int (Z.to_int z).

Definition str_exn (e : exn) : string :=
  match e with
  | OutOfStock => "Item out of stock"
  | InvalidShelfCode => "Invalid shelf code"
  | InvalidStateInsert => "Can't insert coins in current state"
  | InvalidStateSelect => "Insert coins before selecting item"
  | InsufficientFunds price paid =>
      ("Insufficient funds. Price: " ++ str_int price
         ++ ", Paid: " ++ str_int paid)%string
  end.

(** A line written by [print].  The three forms are the three [print] calls
    of the controller; [render] is the text of the line. *)
Inductive Line : Type :=
  | CoinInserted (c : Coin)
  | Dispensing (t : ItemType) (change : Z)
  | Error (e : exn).

Definition render (l : Line) : string :=
  match l with
  | CoinInserted c =>
      ("Coin inserted: " ++ Coin_name c
         ++ " (" ++ str_int (Coin_value c) ++ ")")%string
  | Dispensing t change =>
      ("Dispensing " ++ ItemType_value t
         ++ ". Change returned: " ++ str_int change)%string
  | Error e => ("Error: " ++ str_exn e)%string
  end.

(** ** The method monad *)

(** A method on a receiver of type [S] returning [A]: from the receiver
    before the call to the raised exception or the returned value, the
    receiver after the call, and the lines printed. *)
Definition Py (S A : Type) : Type := S -> (exn + A) * S * list Line.

Module Py.

Definition ret {S A} (a : A) : Py S A := fun s => (inr a, s, []).

Definition raise {S A} (e : exn) : Py S A := fun s => (inl e, s, []).

Definition bind {S A B} (m : Py S A) (k : A -> Py S B) : Py S B :=
  fun s =>
    match m s with
    | (inl e, s1, out1) => (inl e, s1, out1)
    | (inr a, s1, out1) =>
        match k a s1 with
        | (r, s2, out2) => (r, s2, out1 ++ out2)
        end
    end.

(** [try: m except Exception as e: h e] *)
Definition try_except {S A} (m : Py S A) (h : exn -> Py S A) : Py S A :=
  fun s =>
    match m s with
    | (inl e, s1, out1) =>
        match h e s1 with
        | (r, s2, out2) => (r, s2, out1 ++ out2)
        end
    | (inr a, s1, out1) => (inr a, s1, out1)
    end.

Definition get {S} : Py S S := fun s => (inr s, s, []).

Definition modify {S} (f : S -> S) : Py S unit := fun s => (inr tt, f s, []).

Definition print {S} (l : Line) : Py S unit := fun s => (inr tt, s, [l]).

(** [for x in xs: body x] *)
Fixpoint for_each {S X} (xs : list X) (body : X -> Py S unit) : Py S unit :=
  match xs with
  | [] => ret tt
  | x :: rest => bind (body x) (fun _ => for_each rest body)
  end.

(** Components of an outcome. *)
Definition result {S A} (o : (exn + A) * S * list Line) : exn + A := fst (fst o).
Definition after {S A} (o : (exn + A) * S * list Line) : S := snd (fst o).
Definition printed {S A} (o : (exn + A) * S * list Line) : list Line := snd o.

End Py.

Declare Scope py_scope.
Delimit Scope py_scope with py.
Notation "x <- m ;; k" := (Py.bind m (fun x => k))
  (at level 61, m at next level, right associativity) : py_scope.
Notation "m ;;; k" := (Py.bind m (fun _ => k))
  (at level 61, right associativity) : py_scope.

(** [range(n)] *)
Definition range (n : Z) : list Z := map Z.of_nat (seq 0 (Z.to_nat n)).

(** ** Item *)

Module Item.

Record t : Type := mk { type : ItemType; price : Z }.

End Item.

(** ** ItemShelf *)

Module ItemShelf.

Record t : Type := mk { code : Z; items : list Item.t; is_sold_out : bool }.

Definition __init__ (code : Z) : t :=
  {| code := code; items := []; is_sold_out := false |}.

Definition set_items (l : list Item.t) (self : t) : t :=
  {| code := code self; items := l; is_sold_out := is_sold_out self |}.

Definition set_is_sold_out (b : bool) (self : t) : t :=
  {| code := code self; items := items self; is_sold_out := b |}.

Section Methods.
Local Open Scope py_scope.

Definition add_item (item : Item.t) : Py t unit :=
  Py.modify (fun self => set_items (items self ++ [item]) self) ;;;
  Py.modify (set_is_sold_out false).

Definition remove_item : Py t Item.t :=
  self <- Py.get ;;
  match items self with
  | [] =>
      Py.modify (set_is_sold_out true) ;;;
      Py.raise OutOfStock
  | item :: rest =>
      (* item = self.items.pop(0) *)
      Py.modify (set_items rest) ;;;
      match rest with
      | [] => Py.modify (set_is_sold_out true)
      | _ :: _ => Py.ret tt
      end ;;;
      Py.ret item
  end.

End Methods.

End ItemShelf.

(** ** Inventory *)

Module Inventory.

Record t : Type := mk { shelves : list ItemShelf.t }.

Definition __init__ (size : Z) : t :=
  {| shelves := map (fun i => ItemShelf.__init__ (100 + i)) (range size) |}.

(** The loop of [add_item] over [self.shelves]: the first shelf with the
    code is mutated in place, and the loop falls through to the [raise]. *)
Fixpoint add_item_loop (code : Z) (item : Item.t) (shelves : list ItemShelf.t)
  : (exn + unit) * list ItemShelf.t * list Line :=
  match shelves with
  | [] => (inl InvalidShelfCode, [], [])
  | shelf :: rest =>
      if ItemShelf.code shelf =? code then
        match ItemShelf.add_item item shelf with
        | (r, shelf', out) => (r, shelf' :: rest, out)
        end
      else
        match add_item_loop code item rest with
        | (r, rest', out) => (r, shelf :: rest', out)
        end
  end.

Definition add_item (code : Z) (item : Item.t) : Py t unit :=
  fun self =>
    match add_item_loop code item (shelves self) with
    | (r, shelves', out) => (r, {| shelves := shelves' |}, out)
    end.

(** The loop of [get_item], of the same shape. *)
Fixpoint get_item_loop (code : Z) (shelves : list ItemShelf.t)
  : (exn + Item.t) * list ItemShelf.t * list Line :=
  match shelves with
  | [] => (inl InvalidShelfCode, [], [])
  | shelf :: rest =>
      if ItemShelf.code shelf =? code then
        match ItemShelf.remove_item shelf with
        | (r, shelf', out) => (r, shelf' :: rest, out)
        end
      else
        match get_item_loop code rest with
        | (r, rest', out) => (r, shelf :: rest', out)
        end
  end.

Definition get_item (code : Z) : Py t Item.t :=
  fun self =>
    match get_item_loop code (shelves self) with
    | (r, shelves', out) => (r, {| shelves := shelves' |}, out)
    end.

Definition has_items (self : t) : bool :=
  existsb (fun shelf => (0 <? List.length (ItemShelf.items shelf))%nat) (shelves self).

End Inventory.

(** ** VendingMachine *)

Module VendingMachine.

Record t : Type := mk {
  state : string;
  inventory : Inventory.t;
  inserted_coins : list Coin;
  selected_code : option Z
}.

Definition __init__ : t :=
  {| state := "IDLE";
     inventory := Inventory.__init__ 10;
     inserted_coins := [];
     selected_code := None |}.

Definition set_state (st : string) (self : t) : t :=
  {| state := st; inventory := inventory self;
     inserted_coins := inserted_coins self; selected_code := selected_code self |}.

Definition set_inventory (inv : Inventory.t) (self : t) : t :=
  {| state := state self; inventory := inv;
     inserted_coins := inserted_coins self; selected_code := selected_code self |}.

Definition set_inserted_coins (coins : list Coin) (self : t) : t :=
  {| state := state self; inventory := inventory self;
     inserted_coins := coins; selected_code := selected_code self |}.

Definition set_selected_code (c : option Z) (self : t) : t :=
  {| state := state self; inventory := inventory self;
     inserted_coins := inserted_coins self; selected_code := c |}.

(** [self.inventory.method(..)] *)
Definition on_inventory {A} (m : Py Inventory.t A) : Py t A :=
  fun self =>
    match m (inventory self) with
    | (r, inv', out) => (r, set_inventory inv' self, out)
    end.

(** [sum(c.value for c in coins)] *)
Definition total (coins : list Coin) : Z :=
  fold_left (fun acc c => acc + Coin_value c) coins 0.

Section Methods.
Local Open Scope py_scope.

Definition insert_coin (coin : Coin) : Py t unit :=
  self <- Py.get ;;
  if negb (existsb (String.eqb (state self)) ["IDLE"; "HAS_MONEY"]) then
    Py.raise InvalidStateInsert
  else
    Py.print (CoinInserted coin) ;;;
    Py.modify (fun self => set_inserted_coins (inserted_coins self ++ [coin]) self) ;;;
    Py.modify (set_state "HAS_MONEY").

Definition reset : Py t unit :=
  Py.modify (set_state "IDLE") ;;;
  Py.modify (set_inserted_coins []) ;;;
  Py.modify (set_selected_code None).

Definition select_product (code : Z) : Py t unit :=
  self <- Py.get ;;
  if negb (state self =? "HAS_MONEY")%string then
    Py.raise InvalidStateSelect
  else
    Py.modify (set_selected_code (Some code)) ;;;
    self <- Py.get ;;
    let total := total (inserted_coins self) in
    Py.try_except
      (item <- on_inventory (Inventory.get_item code) ;;
       if total <? Item.price item then
         Py.raise (InsufficientFunds (Item.price item) total)
       else
         let change := total - Item.price item in
         Py.print (Dispensing (Item.type item) change) ;;;
         reset)
      (fun e =>
         Py.print (Error e) ;;;
         reset).

Definition load_items : Py t unit :=
  Py.for_each (range 10) (fun i =>
    let item_type := nth (Z.to_nat (i mod 4)) [COKE; PEPSI; JUICE; SODA] COKE in
    let price := 10 + (i mod 3) * 5 in
    Py.for_each (range 3) (fun _ =>
      on_inventory (Inventory.add_item (100 + i) (Item.mk item_type price)))).

End Methods.

End VendingMachine.

(** ** Observations used by the properties *)

(** The shelf that [Inventory.add_item] and [Inventory.get_item] act on:
    the first one of [self.shelves] with the code. *)
Definition shelf_with_code (code : Z) (inv : Inventory.t) : option ItemShelf.t :=
  find (fun shelf => ItemShelf.code shelf =? code) (Inventory.shelves inv).

(** [len(shelf.items)] of that shelf, as [Inventory.display] shows it. *)
Definition stock_count (code : Z) (inv : Inventory.t) : option nat :=
  option_map (fun shelf => List.length (ItemShelf.items shelf)) (shelf_with_code code inv).

Definition no_shelf_has_code (code : Z) (inv : Inventory.t) : Prop :=
  forall shelf, In shelf (Inventory.shelves inv) -> ItemShelf.code shelf <> code.

(** The first shelf with the code replaced by its image under [f]. *)
Fixpoint update_shelf (code : Z) (f : ItemShelf.t -> ItemShelf.t)
    (shelves : list ItemShelf.t) : list ItemShelf.t :=
  match shelves with
  | [] => []
  | shelf :: rest =>
      if ItemShelf.code shelf =? code then f shelf :: rest
      else shelf :: update_shelf code f rest
  end.

(** *** Histories of a shelf *)

Inductive shelf_op : Type :=
  | Add (item : Item.t)
  | RemoveHead.

(** The shelf after one operation, whether it returned or raised. *)
Definition run_shelf_op (s : ItemShelf.t) (o : shelf_op) : ItemShelf.t :=
  match o with
  | Add item => Py.after (ItemShelf.add_item item s)
  | RemoveHead => Py.after (ItemShelf.remove_item s)
  end.

Definition run_shelf_ops (ops : list shelf_op) (s : ItemShelf.t) : ItemShelf.t :=
  fold_left run_shelf_op ops s.

(** A shelf state is reachable when a history of operations leads to it
    from a freshly constructed shelf. *)
Definition shelf_reachable (s : ItemShelf.t) : Prop :=
  exists code ops, s = run_shelf_ops ops (ItemShelf.__init__ code).

Definition sold_out_iff_empty (s : ItemShelf.t) : Prop :=
  ItemShelf.is_sold_out s = true <-> ItemShelf.items s = [].

(** The half of the invariant that every reachable shelf state has. *)
Definition sold_out_only_if_empty (s : ItemShelf.t) : Prop :=
  ItemShelf.is_sold_out s = true -> ItemShelf.items s = [].

Definition add_items (l : list Item.t) (s : ItemShelf.t) : ItemShelf.t :=
  run_shelf_ops (map Add l) s.

(** [n] successive calls of [remove_item]: what each call returned or
    raised, in order, and the shelf at the end. *)
Fixpoint remove_items (n : nat) (s : ItemShelf.t)
  : list (exn + Item.t) * ItemShelf.t :=
  match n with
  | O => ([], s)
  | S n' =>
      let o := ItemShelf.remove_item s in
      let (rs, s') := remove_items n' (Py.after o) in
      (Py.result o :: rs, s')
  end.

(** The items handed out and the items put in by a history. *)
Fixpoint removed_by (ops : list shelf_op) (s : ItemShelf.t) : list Item.t :=
  match ops with
  | [] => []
  | o :: rest =>
      match o with
      | Add _ => removed_by rest (run_shelf_op s o)
      | RemoveHead =>
          match Py.result (ItemShelf.remove_item s) with
          | inr item => item :: removed_by rest (run_shelf_op s o)
          | inl _ => removed_by rest (run_shelf_op s o)
          end
      end
  end.

Fixpoint added_by (ops : list shelf_op) : list Item.t :=
  match ops with
  | [] => []
  | Add item :: rest => item :: added_by rest
  | RemoveHead :: rest => added_by rest
  end.

(** *** Histories of the controller *)

Inductive call : Type :=
  | InsertCoin (coin : Coin)
  | SelectProduct (code : Z)
  | LoadItems
  | Reset.

Definition run_call (c : call) : Py VendingMachine.t unit :=
  match c with
  | InsertCoin coin => VendingMachine.insert_coin coin
  | SelectProduct code => VendingMachine.select_product code
  | LoadItems => VendingMachine.load_items
  | Reset => VendingMachine.reset
  end.

(** The controller states that calls of the public methods lead to from
    [VendingMachine()].  A call that raises still counts: the caller may
    catch the exception and go on with the machine as the call left it. *)
Inductive reachable : VendingMachine.t -> Prop :=
  | reachable_init : reachable VendingMachine.__init__
  | reachable_call vm c :
      reachable vm -> reachable (Py.after (run_call c vm)).

(** The controller between two transactions, over a given inventory. *)
Definition idle (inv : Inventory.t) : VendingMachine.t :=
  {| VendingMachine.state := "IDLE";
     VendingMachine.inventory := inv;
     VendingMachine.inserted_coins := [];
     VendingMachine.selected_code := None |}.

(** The controller after a history of calls, made one after the other. *)
Definition run_calls (cs : list call) (vm : VendingMachine.t) : VendingMachine.t :=
  fold_left (fun vm c => Py.after (run_call c vm)) cs vm.

(** The machine of the demonstration: [vm = VendingMachine()] followed by
    [vm.load_items()]. *)
Definition loaded : VendingMachine.t :=
  run_calls [LoadItems] VendingMachine.__init__.

(** The machine of the demonstration with coins inserted. *)
Definition funded (coins : list Coin) : VendingMachine.t :=
  run_calls (map InsertCoin coins) loaded.

(** The fields of the transaction: [load_items] leaves them alone. *)
Definition same_transaction (vm vm' : VendingMachine.t) : Prop :=
  VendingMachine.state vm' = VendingMachine.state vm /\
  VendingMachine.inserted_coins vm' = VendingMachine.inserted_coins vm /\
  VendingMachine.selected_code vm' = VendingMachine.selected_code vm.

(** What every reachable controller state satisfies. *)
Definition well_formed (vm : VendingMachine.t) : Prop :=
  (VendingMachine.state vm = "IDLE" \/ VendingMachine.state vm = "HAS_MONEY") /\
  (VendingMachine.state vm = "IDLE" ->
   VendingMachine.inserted_coins vm = [] /\ VendingMachine.selected_code vm = None).

(** *** Observations of the inventory as a whole *)

(** The codes of the shelves, in the order of [self.shelves]. *)
Definition shelf_codes (inv : Inventory.t) : list Z :=
  map ItemShelf.code (Inventory.shelves inv).

(** The number of items on all the shelves together. *)
Definition total_stock (inv : Inventory.t) : nat :=
  list_sum (map (fun shelf => List.length (ItemShelf.items shelf))
              (Inventory.shelves inv)).

(** A shelf after [add_item] calls that appended the items [new]. *)
Definition restocked (new : list Item.t) (shelf : ItemShelf.t) : ItemShelf.t :=
  {| ItemShelf.code := ItemShelf.code shelf;
     ItemShelf.items := ItemShelf.items shelf ++ new;
     ItemShelf.is_sold_out := false |}.

(** The item that [load_items] makes for the shelf [100 + i]. *)
Definition demo_item (i : Z) : Item.t :=
  Item.mk (nth (Z.to_nat (i mod 4)) [COKE; PEPSI; JUICE; SODA] COKE)
          (10 + (i mod 3) * 5).

(** The shelf as [load_items] leaves it: three items more. *)
Definition load_shelf (shelf : ItemShelf.t) : ItemShelf.t :=
  restocked (repeat (demo_item (ItemShelf.code shelf - 100)) 3) shelf.

(** [sum] of the values of a list of coins, from the right. *)
Definition coins_value (coins : list Coin) : Z :=
  fold_right (fun c acc => Coin_value c + acc) 0 coins.

(** Every shelf of the inventory raises its flag only when it is empty. *)
Definition shelves_sound (inv : Inventory.t) : Prop :=
  Forall sold_out_only_if_empty (Inventory.shelves inv).

(** * Properties *)

(** ** The shelf *)

Section Shelf.

Import ItemShelf.

Lemma add_item_eq (item : Item.t) (s : t) :
  add_item item s =
  (inr tt, {| code := code s; items := items s ++ [item]; is_sold_out := false |}, []).
Proof. reflexivity. Qed.

Lemma remove_item_empty (s : t) :
  items s = [] ->
  remove_item s =
  (inl OutOfStock, {| code := code s; items := []; is_sold_out := true |}, []).
Proof.
  intros E. unfold remove_item, Py.bind, Py.get. rewrite E. cbn.
  unfold set_is_sold_out. rewrite E. reflexivity.
Qed.

Lemma remove_item_cons (s : t) (item : Item.t) (rest : list Item.t) :
  items s = item :: rest ->
  remove_item s =
  (inr item,
   {| code := code s; items := rest;
      is_sold_out := match rest with [] => true | _ :: _ => is_sold_out s end |},
   []).
Proof.
  intros E. unfold remove_item, Py.bind, Py.get. rewrite E.
  destruct rest; reflexivity.
Qed.

Lemma remove_item_code (s : t) : code (Py.after (remove_item s)) = code s.
Proof.
  destruct (items s) as [|item rest] eqn:E.
  - rewrite (remove_item_empty s E). reflexivity.
  - rewrite (remove_item_cons s item rest E). reflexivity.
Qed.

Lemma remove_item_printed (s : t) : Py.printed (remove_item s) = [].
Proof.
  destruct (items s) as [|item rest] eqn:E.
  - rewrite (remove_item_empty s E). reflexivity.
  - rewrite (remove_item_cons s item rest E). reflexivity.
Qed.

Lemma run_shelf_op_iff (s : t) (o : shelf_op) :
  sold_out_only_if_empty s -> sold_out_iff_empty (run_shelf_op s o).
Proof.
  unfold sold_out_only_if_empty, sold_out_iff_empty. intros I.
  destruct o as [item|]; cbn [run_shelf_op].
  - rewrite add_item_eq. cbn. split; [discriminate|].
    destruct (items s); discriminate.
  - destruct (items s) as [|item rest] eqn:E.
    + rewrite (remove_item_empty s E). cbn. tauto.
    + rewrite (remove_item_cons s item rest E). cbn. destruct rest as [|i r]; [tauto|].
      split; [|discriminate]. intros F. specialize (I F). discriminate.
Qed.

Lemma run_shelf_ops_only_if (ops : list shelf_op) (s : t) :
  sold_out_only_if_empty s -> sold_out_only_if_empty (run_shelf_ops ops s).
Proof.
  revert s. induction ops as [|o ops IH]; intros s I; [exact I|].
  cbn. apply IH. intros F. apply (run_shelf_op_iff s o I). exact F.
Qed.

Lemma run_shelf_ops_snoc (ops : list shelf_op) (o : shelf_op) (s : t) :
  run_shelf_ops (ops ++ [o]) s = run_shelf_op (run_shelf_ops ops s) o.
Proof. unfold run_shelf_ops. rewrite fold_left_app. reflexivity. Qed.

Lemma add_items_items (l : list Item.t) (s : t) :
  items (add_items l s) = items s ++ l.
Proof.
  revert s. induction l as [|item l IH]; intros s.
  - cbn. rewrite app_nil_r. reflexivity.
  - unfold add_items in *. cbn. rewrite IH. cbn. rewrite <- app_assoc. reflexivity.
Qed.

Lemma remove_items_all (l : list Item.t) (s : t) :
  items s = l ->
  fst (remove_items (List.length l) s) = map inr l.
Proof.
  revert s. induction l as [|item l IH]; intros s E; [reflexivity|].
  cbn [List.length remove_items]. rewrite (remove_item_cons s item l E).
  cbn [Py.after Py.result fst snd].
  specialize (IH _ (eq_refl : items {| code := code s; items := l;
     is_sold_out := match l with [] => true | _ :: _ => is_sold_out s end |} = l)).
  destruct (remove_items _ _) as [rs s']. cbn in *. rewrite IH. reflexivity.
Qed.

(** C2, as the specification states it, fails on a freshly constructed
    shelf: [__init__] leaves [items] empty and sets [is_sold_out] to
    [False]. *)
Lemma fresh_shelf_not_sold_out :
  ~ (forall s, shelf_reachable s -> sold_out_iff_empty s).
Proof.
  intros H.
  assert (R : shelf_reachable (__init__ 100)) by (exists 100, []; reflexivity).
  destruct (H _ R) as [_ F]. specialize (F eq_refl). discriminate.
Qed.

(** C2, amended: a freshly constructed shelf has empty stock and
    [is_sold_out = False]; in every shelf state reached from it by [add_item]
    and [remove_item] calls (returning or raising) [is_sold_out] implies that
    the stock is empty; and after at least one such call [is_sold_out] is
    true if and only if the stock is empty. *)
Theorem shelf_sold_out_after_mutation (c : Z) (ops : list shelf_op) :
  (items (__init__ c) = [] /\ is_sold_out (__init__ c) = false) /\
  (is_sold_out (run_shelf_ops ops (__init__ c)) = true ->
   items (run_shelf_ops ops (__init__ c)) = []) /\
  (ops <> [] -> sold_out_iff_empty (run_shelf_ops ops (__init__ c))).
Proof.
  assert (I0 : sold_out_only_if_empty (__init__ c)) by (intros F; discriminate).
  split; [split; reflexivity|]. split.
  - exact (run_shelf_ops_only_if ops _ I0).
  - intros N. destruct (exists_last N) as [ops' [o ->]].
    rewrite run_shelf_ops_snoc. apply run_shelf_op_iff.
    exact (run_shelf_ops_only_if ops' _ I0).
Qed.

Lemma shelf_sold_out_after_mutation_witness :
  let ops := [Add (Item.mk COKE 10); RemoveHead; RemoveHead; Add (Item.mk SODA 5)] in
  ops <> [] /\ sold_out_iff_empty (run_shelf_ops ops (__init__ 100)).
Proof.
  intros ops. assert (N : ops <> []) by discriminate.
  split; [exact N|].
  exact (proj2 (proj2 (shelf_sold_out_after_mutation 100 ops)) N).
Defined.

(** X19: For every history of [add_item] and [remove_item] calls on a shelf, in
    any interleaving, the items handed out followed by the items still on
    the shelf are the items it held at the start followed by the items
    added, in order: nothing is lost, duplicated or reordered. *)
Lemma removed_by_queue (ops : list shelf_op) (s : t) :
  removed_by ops s ++ items (run_shelf_ops ops s) = items s ++ added_by ops.
Proof.
  revert s. induction ops as [|o ops IH]; intros s.
  - cbn. rewrite app_nil_r. reflexivity.
  - destruct o as [item|]; cbn [removed_by added_by run_shelf_ops fold_left].
    + fold (run_shelf_ops ops (run_shelf_op s (Add item))).
      rewrite IH. cbn. rewrite <- app_assoc. reflexivity.
    + fold (run_shelf_ops ops (run_shelf_op s RemoveHead)).
      destruct (items s) as [|item rest] eqn:E.
      * cbn [run_shelf_op]. rewrite (remove_item_empty s E).
        cbn [Py.result Py.after fst snd]. rewrite IH. reflexivity.
      * cbn [run_shelf_op]. rewrite (remove_item_cons s item rest E).
        cbn [Py.result Py.after fst snd]. rewrite <- app_comm_cons, IH.
        reflexivity.
Qed.

(** C5: the items added to a shelf come back from successive [remove_item]
    calls in the order in which they were added: on a freshly constructed
    shelf exactly the added items, in order, and on a shelf that already
    holds stock that stock first and then the added items, in order. *)
Theorem shelf_fifo (l : list Item.t) :
  (forall c,
     fst (remove_items (List.length l) (add_items l (__init__ c))) = map inr l) /\
  (forall s,
     fst (remove_items (List.length (items s ++ l)) (add_items l s))
     = map inr (items s ++ l)).
Proof.
  split; intros; apply remove_items_all; rewrite add_items_items; reflexivity.
Qed.

End Shelf.

(** ** The inventory *)

Section InventoryFacts.

Lemma find_no_shelf (c : Z) (inv : Inventory.t) :
  no_shelf_has_code c inv <-> shelf_with_code c inv = None.
Proof.
  unfold no_shelf_has_code, shelf_with_code. split.
  - intros H. destruct (find _ _) as [sh|] eqn:F; [|reflexivity].
    apply find_some in F. destruct F as [I E]. apply Z.eqb_eq in E.
    elim (H sh I E).
  - intros F sh I E. apply (find_none _ _ F) in I. apply Z.eqb_neq in I.
    exact (I E).
Qed.

(** [get_item] in one equation: what it returns and how it leaves the
    shelves is decided by the first shelf with the code. *)
Lemma get_item_loop_eq (c : Z) (l : list ItemShelf.t) :
  Inventory.get_item_loop c l =
  match find (fun shelf => ItemShelf.code shelf =? c) l with
  | None => (inl InvalidShelfCode, l, [])
  | Some sh =>
      (Py.result (ItemShelf.remove_item sh),
       update_shelf c (fun s => Py.after (ItemShelf.remove_item s)) l,
       [])
  end.
Proof.
  induction l as [|sh l IH]; [reflexivity|].
  cbn [Inventory.get_item_loop find update_shelf].
  destruct (ItemShelf.code sh =? c) eqn:E.
  - pose proof (remove_item_printed sh) as P.
    destruct (ItemShelf.remove_item sh) as [[r sh'] out]. cbn in P. subst out.
    reflexivity.
  - rewrite IH. destruct (find _ l); reflexivity.
Qed.

Lemma get_item_eq (c : Z) (inv : Inventory.t) :
  Inventory.get_item c inv =
  match shelf_with_code c inv with
  | None => (inl InvalidShelfCode, inv, [])
  | Some sh =>
      (Py.result (ItemShelf.remove_item sh),
       {| Inventory.shelves :=
            update_shelf c (fun s => Py.after (ItemShelf.remove_item s))
              (Inventory.shelves inv) |},
       [])
  end.
Proof.
  unfold Inventory.get_item, shelf_with_code. rewrite get_item_loop_eq.
  destruct inv as [l]. cbn. destruct (find _ l); reflexivity.
Qed.

Lemma find_update_shelf_same (c : Z) (f : ItemShelf.t -> ItemShelf.t)
    (l : list ItemShelf.t) :
  (forall s, ItemShelf.code (f s) = ItemShelf.code s) ->
  find (fun shelf => ItemShelf.code shelf =? c) (update_shelf c f l)
  = option_map f (find (fun shelf => ItemShelf.code shelf =? c) l).
Proof.
  intros K. induction l as [|sh l IH]; [reflexivity|].
  cbn [update_shelf find]. destruct (ItemShelf.code sh =? c) eqn:E.
  - cbn [find]. rewrite K, E. reflexivity.
  - cbn [find]. rewrite E. exact IH.
Qed.

Lemma find_update_shelf_other (c c' : Z) (f : ItemShelf.t -> ItemShelf.t)
    (l : list ItemShelf.t) :
  (forall s, ItemShelf.code (f s) = ItemShelf.code s) ->
  c' <> c ->
  find (fun shelf => ItemShelf.code shelf =? c') (update_shelf c f l)
  = find (fun shelf => ItemShelf.code shelf =? c') l.
Proof.
  intros K N. induction l as [|sh l IH]; [reflexivity|].
  cbn [update_shelf find]. destruct (ItemShelf.code sh =? c) eqn:E.
  - cbn [find]. rewrite K. apply Z.eqb_eq in E.
    assert (F : (ItemShelf.code sh =? c') = false) by (apply Z.eqb_neq; lia).
    rewrite F. reflexivity.
  - cbn [find]. destruct (ItemShelf.code sh =? c'); [reflexivity|exact IH].
Qed.

(** After [get_item] the shelf with the code is the shelf [remove_item]
    left behind, and the shelves with other codes are as before. *)
Lemma get_item_shelf_same (c : Z) (inv : Inventory.t) (sh : ItemShelf.t) :
  shelf_with_code c inv = Some sh ->
  shelf_with_code c (Py.after (Inventory.get_item c inv))
  = Some (Py.after (ItemShelf.remove_item sh)).
Proof.
  intros F. rewrite get_item_eq, F. cbn [Py.after fst snd].
  unfold shelf_with_code in *. cbn [Inventory.shelves].
  rewrite find_update_shelf_same by apply remove_item_code.
  rewrite F. reflexivity.
Qed.

Lemma get_item_shelf_other (c c' : Z) (inv : Inventory.t) :
  c' <> c ->
  shelf_with_code c' (Py.after (Inventory.get_item c inv))
  = shelf_with_code c' inv.
Proof.
  intros N. rewrite get_item_eq. destruct (shelf_with_code c inv) eqn:F;
    cbn [Py.after fst snd]; [|reflexivity].
  unfold shelf_with_code. cbn [Inventory.shelves].
  apply find_update_shelf_other; [apply remove_item_code|exact N].
Qed.

(** C6: [get_item] raises "Invalid shelf code" when no shelf has the code
    and leaves the inventory as it was; when the shelf with the code has no
    stock it raises the shelf's "Item out of stock", and that shelf is left
    with [is_sold_out = True] and still no stock. *)
Theorem get_item_failures (c : Z) (inv : Inventory.t) :
  (no_shelf_has_code c inv ->
   Inventory.get_item c inv = (inl InvalidShelfCode, inv, [])) /\
  (forall sh,
     shelf_with_code c inv = Some sh ->
     ItemShelf.items sh = [] ->
     Py.result (Inventory.get_item c inv) = inl OutOfStock /\
     shelf_with_code c (Py.after (Inventory.get_item c inv))
     = Some {| ItemShelf.code := ItemShelf.code sh;
               ItemShelf.items := [];
               ItemShelf.is_sold_out := true |}).
Proof.
  split.
  - intros H. apply find_no_shelf in H. rewrite get_item_eq, H. reflexivity.
  - intros sh F E. split.
    + rewrite get_item_eq, F, (remove_item_empty sh E). reflexivity.
    + rewrite (get_item_shelf_same c inv sh F), (remove_item_empty sh E).
      reflexivity.
Qed.

Lemma get_item_failures_witness :
  (no_shelf_has_code 999 (VendingMachine.inventory loaded) /\
   Inventory.get_item 999 (VendingMachine.inventory loaded)
   = (inl InvalidShelfCode, VendingMachine.inventory loaded, [])) /\
  (shelf_with_code 101 (Inventory.__init__ 10) = Some (ItemShelf.__init__ 101) /\
   ItemShelf.items (ItemShelf.__init__ 101) = [] /\
   Py.result (Inventory.get_item 101 (Inventory.__init__ 10)) = inl OutOfStock /\
   shelf_with_code 101 (Py.after (Inventory.get_item 101 (Inventory.__init__ 10)))
   = Some {| ItemShelf.code := 101;
             ItemShelf.items := [];
             ItemShelf.is_sold_out := true |}).
Proof.
  assert (N : no_shelf_has_code 999 (VendingMachine.inventory loaded))
    by (apply find_no_shelf; reflexivity).
  assert (F : shelf_with_code 101 (Inventory.__init__ 10)
              = Some (ItemShelf.__init__ 101)) by reflexivity.
  assert (E : ItemShelf.items (ItemShelf.__init__ 101) = []) by reflexivity.
  split.
  - split; [exact N|].
    exact (proj1 (get_item_failures 999 (VendingMachine.inventory loaded)) N).
  - split; [exact F|]. split; [exact E|].
    exact (proj2 (get_item_failures 101 (Inventory.__init__ 10)) _ F E).
Defined.

End InventoryFacts.

(** ** The controller *)

Section Controller.

Import VendingMachine.

Lemma reset_eq (vm : t) : reset vm = (inr tt, idle (inventory vm), []).
Proof. reflexivity. Qed.

(** [select_product] outside ["HAS_MONEY"]: the guard raises before
    anything is touched. *)
Lemma select_product_guard (code : Z) (vm : t) :
  state vm <> "HAS_MONEY" ->
  select_product code vm = (inl InvalidStateSelect, vm, []).
Proof.
  intros N. unfold select_product, Py.bind, Py.get.
  apply String.eqb_neq in N. rewrite N. reflexivity.
Qed.

(** [select_product] in ["HAS_MONEY"], in one equation. *)
Lemma select_product_has_money (code : Z) (vm : t) :
  state vm = "HAS_MONEY" ->
  select_product code vm =
  match shelf_with_code code (inventory vm) with
  | None => (inr tt, idle (inventory vm), [Error InvalidShelfCode])
  | Some sh =>
      let inv' := Py.after (Inventory.get_item code (inventory vm)) in
      match Py.result (ItemShelf.remove_item sh) with
      | inl e => (inr tt, idle inv', [Error e])
      | inr item =>
          let paid := total (inserted_coins vm) in
          if paid <? Item.price item then
            (inr tt, idle inv', [Error (InsufficientFunds (Item.price item) paid)])
          else
            (inr tt, idle inv', [Dispensing (Item.type item) (paid - Item.price item)])
      end
  end.
Proof.
  intros H. unfold select_product, Py.bind at 1, Py.get at 1.
  rewrite H. cbn [String.eqb Ascii.eqb Bool.eqb negb].
  unfold Py.bind at 1, Py.modify at 1.
  unfold Py.bind at 1, Py.get at 1.
  unfold Py.try_except, Py.bind at 1, on_inventory.
  cbn [inventory set_selected_code inserted_coins].
  rewrite (get_item_eq code (inventory vm)).
  destruct (shelf_with_code code (inventory vm)) as [sh|] eqn:F.
  - cbn [Py.after fst snd].
    destruct (Py.result (ItemShelf.remove_item sh)) as [e|item]; [reflexivity|].
    destruct (total (inserted_coins vm) <? Item.price item); reflexivity.
  - destruct vm; reflexivity.
Qed.

Lemma insert_coin_accepts (coin : Coin) (vm : t) :
  state vm = "IDLE" \/ state vm = "HAS_MONEY" ->
  insert_coin coin vm =
  (inr tt,
   {| state := "HAS_MONEY";
      inventory := inventory vm;
      inserted_coins := inserted_coins vm ++ [coin];
      selected_code := selected_code vm |},
   [CoinInserted coin]).
Proof.
  intros H. unfold insert_coin, Py.bind at 1, Py.get.
  destruct H as [H|H]; rewrite H; reflexivity.
Qed.

(** X20: With the state field set to anything but ["IDLE"] and ["HAS_MONEY"],
    [insert_coin] raises "Can't insert coins in current state" before it
    prints or changes anything. *)
Lemma insert_coin_rejects (coin : Coin) (vm : t) :
  state vm <> "IDLE" -> state vm <> "HAS_MONEY" ->
  insert_coin coin vm = (inl InvalidStateInsert, vm, []).
Proof.
  intros N1 N2. unfold insert_coin, Py.bind at 1, Py.get.
  apply String.eqb_neq in N1, N2. cbn [existsb]. rewrite N1, N2. reflexivity.
Qed.

Lemma for_each_same_transaction {X} (xs : list X) (body : X -> Py t unit) :
  (forall x vm, same_transaction vm (Py.after (body x vm))) ->
  forall vm, same_transaction vm (Py.after (Py.for_each xs body vm)).
Proof.
  intros B. induction xs as [|x xs IH]; intros vm.
  - repeat split.
  - cbn [Py.for_each]. unfold Py.bind.
    pose proof (B x vm) as Bx.
    destruct (body x vm) as [[[e|[]] vm1] out1]; cbn [Py.after fst snd] in *.
    + exact Bx.
    + pose proof (IH vm1) as I.
      destruct (Py.for_each xs body vm1) as [[r vm2] out2].
      cbn [Py.after fst snd] in *.
      destruct Bx as (B1 & B2 & B3), I as (I1 & I2 & I3).
      repeat split; congruence.
Qed.

Lemma on_inventory_same_transaction {A} (m : Py Inventory.t A) (vm : t) :
  same_transaction vm (Py.after (on_inventory m vm)).
Proof.
  unfold on_inventory. destruct (m (inventory vm)) as [[r inv'] out].
  repeat split.
Qed.

Lemma load_items_same_transaction (vm : t) :
  same_transaction vm (Py.after (load_items vm)).
Proof.
  unfold load_items. apply for_each_same_transaction. intros i vm1.
  apply for_each_same_transaction. intros _ vm2.
  apply on_inventory_same_transaction.
Qed.

Lemma run_call_well_formed (c : call) (vm : t) :
  well_formed vm -> well_formed (Py.after (run_call c vm)).
Proof.
  intros [S I]. destruct c as [coin|code| |]; cbn [run_call].
  - rewrite (insert_coin_accepts coin vm S). cbn [Py.after fst snd].
    split; [right; reflexivity|]. cbn. discriminate.
  - destruct S as [S|S].
    + rewrite select_product_guard by (rewrite S; discriminate).
      split; [left; exact S|exact I].
    + rewrite (select_product_has_money code vm S).
      assert (W : forall inv, well_formed (idle inv))
        by (intros inv; split; [left; reflexivity|intros _; split; reflexivity]).
      destruct (shelf_with_code code (inventory vm)) as [sh|]; [|apply W].
      destruct (Py.result (ItemShelf.remove_item sh)) as [e|item]; [apply W|].
      cbv zeta. destruct (_ <? _); apply W.
  - destruct (load_items_same_transaction vm) as (L1 & L2 & L3).
    unfold well_formed. rewrite L1, L2, L3. split; assumption.
  - rewrite reset_eq. split; [left; reflexivity|intros _; split; reflexivity].
Qed.

Lemma reachable_well_formed (vm : t) : reachable vm -> well_formed vm.
Proof.
  induction 1 as [|vm c R IH].
  - split; [left; reflexivity|intros _; split; reflexivity].
  - apply run_call_well_formed. exact IH.
Qed.

(** Whatever the outcome, a selection in ["HAS_MONEY"] leaves the inventory
    as [Inventory.get_item] left it. *)
Lemma select_product_inventory (code : Z) (vm : t) :
  state vm = "HAS_MONEY" ->
  inventory (Py.after (select_product code vm))
  = Py.after (Inventory.get_item code (inventory vm)).
Proof.
  intros H. rewrite (select_product_has_money code vm H), get_item_eq.
  destruct (shelf_with_code code (inventory vm)) as [sh|]; [|reflexivity].
  destruct (Py.result (ItemShelf.remove_item sh)) as [e|item]; [reflexivity|].
  cbv zeta. destruct (_ <? _); reflexivity.
Qed.

Lemma stock_count_after_select (code : Z) (vm : t) (sh : ItemShelf.t)
    (item : Item.t) (rest : list Item.t) :
  state vm = "HAS_MONEY" ->
  shelf_with_code code (inventory vm) = Some sh ->
  ItemShelf.items sh = item :: rest ->
  stock_count code (inventory vm) = Some (S (List.length rest)) /\
  shelf_with_code code (inventory (Py.after (select_product code vm)))
  = Some {| ItemShelf.code := ItemShelf.code sh;
            ItemShelf.items := rest;
            ItemShelf.is_sold_out :=
              match rest with
              | [] => true
              | _ :: _ => ItemShelf.is_sold_out sh
              end |} /\
  stock_count code (inventory (Py.after (select_product code vm)))
  = Some (List.length rest).
Proof.
  intros H F E.
  assert (G : shelf_with_code code (inventory (Py.after (select_product code vm)))
              = Some {| ItemShelf.code := ItemShelf.code sh;
                        ItemShelf.items := rest;
                        ItemShelf.is_sold_out :=
                          match rest with
                          | [] => true
                          | _ :: _ => ItemShelf.is_sold_out sh
                          end |}).
  { rewrite (select_product_inventory code vm H).
    rewrite (get_item_shelf_same code (inventory vm) sh F).
    rewrite (remove_item_cons sh item rest E). reflexivity. }
  split; [|split; [exact G|]].
  - unfold stock_count. rewrite F. cbn. rewrite E. reflexivity.
  - unfold stock_count. rewrite G. reflexivity.
Qed.

(** What [select_product] does when the funds are short, in general: the
    error line carries the price and the amount paid, no "Dispensing" line
    is printed, the controller is reset, and the head item has left the
    shelf all the same, because [get_item] pops it before the funds are
    compared with its price. *)
Lemma select_product_insufficient_funds (code : Z) (vm : t) (sh : ItemShelf.t)
    (item : Item.t) (rest : list Item.t) :
  state vm = "HAS_MONEY" ->
  shelf_with_code code (inventory vm) = Some sh ->
  ItemShelf.items sh = item :: rest ->
  total (inserted_coins vm) < Item.price item ->
  Py.result (select_product code vm) = inr tt /\
  Py.printed (select_product code vm)
  = [Error (InsufficientFunds (Item.price item) (total (inserted_coins vm)))] /\
  state (Py.after (select_product code vm)) = "IDLE" /\
  stock_count code (inventory vm) = Some (S (List.length rest)) /\
  stock_count code (inventory (Py.after (select_product code vm)))
  = Some (List.length rest).
Proof.
  intros H F E L.
  destruct (stock_count_after_select code vm sh item rest H F E) as (C1 & _ & C2).
  rewrite (select_product_has_money code vm H) in *. rewrite F in *.
  rewrite (remove_item_cons sh item rest E) in *. cbn [Py.result fst] in *.
  cbv zeta in *. apply Z.ltb_lt in L. rewrite L in *.
  repeat split; assumption.
Qed.

(** C1: the property does not hold of the code.  On the loaded machine with one FIVE
    inserted, selecting shelf 100 (three items of price 10) prints the
    "Insufficient funds. Price: 10, Paid: 5" error, prints no "Dispensing"
    line and resets the controller, but the shelf is left with two items:
    its stock count went from 3 to 2. *)
Theorem select_product_insufficient_funds_loses_item :
  state (funded [FIVE]) = "HAS_MONEY" /\
  total (inserted_coins (funded [FIVE])) = 5 /\
  option_map ItemShelf.items (shelf_with_code 100 (inventory (funded [FIVE])))
  = Some [Item.mk COKE 10; Item.mk COKE 10; Item.mk COKE 10] /\
  stock_count 100 (inventory (funded [FIVE])) = Some 3%nat /\
  Py.result (select_product 100 (funded [FIVE])) = inr tt /\
  Py.printed (select_product 100 (funded [FIVE]))
  = [Error (InsufficientFunds 10 5)] /\
  state (Py.after (select_product 100 (funded [FIVE]))) = "IDLE" /\
  stock_count 100 (inventory (Py.after (select_product 100 (funded [FIVE]))))
  = Some 2%nat.
Proof. vm_compute. repeat split. Qed.

Lemma total_from (coins : list Coin) (a : Z) :
  fold_left (fun acc c => acc + Coin_value c) coins a = a + coins_value coins.
Proof.
  revert a. induction coins as [|c coins IH]; intros a;
    unfold coins_value; cbn [fold_left fold_right]; [lia|].
  fold (coins_value coins). rewrite IH. lia.
Qed.

Lemma total_app (l1 l2 : list Coin) :
  total (l1 ++ l2) = total l1 + coins_value l2.
Proof. unfold total. rewrite fold_left_app. apply total_from. Qed.

(** [sum(c.value for c in coins)] as the code computes it, from the left
    and starting at 0, is the sum of the values of the coins. *)
Lemma total_coins_value (coins : list Coin) : total coins = coins_value coins.
Proof.
  rewrite <- (app_nil_l coins) at 1. rewrite total_app.
  unfold total. cbn [fold_left]. lia.
Qed.

(** C3: in ["HAS_MONEY"] with inserted coins whose values add up to [T],
    selecting a shelf whose head item costs [P <= T] returns normally, prints
    the "Dispensing" line of that item with change [T - P], and takes exactly
    that item off the shelf: the stock count goes from [n + 1] to [n].  [T] is
    [coins_value], the sum of the coin values, not the total that
    [select_product] computes for itself. *)
Theorem select_product_dispenses (code : Z) (vm : t) (sh : ItemShelf.t)
    (item : Item.t) (rest : list Item.t) :
  state vm = "HAS_MONEY" ->
  shelf_with_code code (inventory vm) = Some sh ->
  ItemShelf.items sh = item :: rest ->
  Item.price item <= coins_value (inserted_coins vm) ->
  Py.result (select_product code vm) = inr tt /\
  Py.printed (select_product code vm)
  = [Dispensing (Item.type item)
       (coins_value (inserted_coins vm) - Item.price item)] /\
  stock_count code (inventory vm) = Some (S (List.length rest)) /\
  option_map ItemShelf.items
    (shelf_with_code code (inventory (Py.after (select_product code vm))))
  = Some rest /\
  stock_count code (inventory (Py.after (select_product code vm)))
  = Some (List.length rest).
Proof.
  intros H F E L. rewrite <- (total_coins_value (inserted_coins vm)) in *.
  destruct (stock_count_after_select code vm sh item rest H F E) as (C1 & G & C2).
  rewrite G. clear G.
  rewrite (select_product_has_money code vm H) in *. rewrite F in *.
  rewrite (remove_item_cons sh item rest E) in *. cbn [Py.result fst] in *.
  cbv zeta in *.
  assert (L' : (total (inserted_coins vm) <? Item.price item) = false)
    by (apply Z.ltb_ge; exact L).
  rewrite L' in *. repeat split; assumption.
Qed.

Lemma select_product_dispenses_witness :
  let vm := funded [TEN; FIVE] in
  let sh := ItemShelf.mk 100 [Item.mk COKE 10; Item.mk COKE 10; Item.mk COKE 10] false in
  state vm = "HAS_MONEY" /\
  shelf_with_code 100 (inventory vm) = Some sh /\
  ItemShelf.items sh = Item.mk COKE 10 :: [Item.mk COKE 10; Item.mk COKE 10] /\
  coins_value (inserted_coins vm) = 15 /\
  Item.price (Item.mk COKE 10) <= coins_value (inserted_coins vm) /\
  Py.result (select_product 100 vm) = inr tt /\
  Py.printed (select_product 100 vm) = [Dispensing COKE 5] /\
  stock_count 100 (inventory vm) = Some 3%nat /\
  stock_count 100 (inventory (Py.after (select_product 100 vm))) = Some 2%nat.
Proof.
  intros vm sh.
  assert (H : state vm = "HAS_MONEY") by reflexivity.
  assert (F : shelf_with_code 100 (inventory vm) = Some sh) by reflexivity.
  assert (E : ItemShelf.items sh
              = Item.mk COKE 10 :: [Item.mk COKE 10; Item.mk COKE 10])
    by reflexivity.
  assert (V : coins_value (inserted_coins vm) = 15) by reflexivity.
  assert (L : Item.price (Item.mk COKE 10) <= coins_value (inserted_coins vm))
    by (vm_compute; discriminate).
  destruct (select_product_dispenses 100 vm sh (Item.mk COKE 10)
              [Item.mk COKE 10; Item.mk COKE 10] H F E L)
    as (R & P & C1 & _ & C2).
  repeat split; assumption.
Defined.

(** C4: a [select_product] call made in ["HAS_MONEY"] returns normally
    whatever happens inside it, with one line printed (the "Dispensing"
    line, or the error line of insufficient funds, of an invalid shelf code
    or of an empty shelf), and leaves the controller in ["IDLE"] with no
    inserted coins and no selected code. *)
Theorem select_product_resets (code : Z) (vm : t) :
  state vm = "HAS_MONEY" ->
  Py.result (select_product code vm) = inr tt /\
  ((exists ty change, Py.printed (select_product code vm) = [Dispensing ty change]) \/
   (exists price paid,
      Py.printed (select_product code vm) = [Error (InsufficientFunds price paid)]) \/
   Py.printed (select_product code vm) = [Error InvalidShelfCode] \/
   Py.printed (select_product code vm) = [Error OutOfStock]) /\
  state (Py.after (select_product code vm)) = "IDLE" /\
  inserted_coins (Py.after (select_product code vm)) = [] /\
  selected_code (Py.after (select_product code vm)) = None.
Proof.
  intros H. rewrite (select_product_has_money code vm H).
  destruct (shelf_with_code code (inventory vm)) as [sh|].
  - destruct (ItemShelf.items sh) as [|item rest] eqn:E.
    + rewrite (remove_item_empty sh E). cbn. repeat split. auto.
    + rewrite (remove_item_cons sh item rest E). cbn [Py.result fst]. cbv zeta.
      destruct (_ <? _); cbn; repeat split; eauto.
  - cbn. repeat split. auto.
Qed.

Lemma select_product_resets_witness :
  state (funded [TEN]) = "HAS_MONEY" /\
  state (Py.after (select_product 102 (funded [TEN]))) = "IDLE" /\
  inserted_coins (Py.after (select_product 102 (funded [TEN]))) = [] /\
  selected_code (Py.after (select_product 102 (funded [TEN]))) = None.
Proof.
  assert (H : state (funded [TEN]) = "HAS_MONEY") by reflexivity.
  destruct (select_product_resets 102 (funded [TEN]) H) as (_ & _ & S & C & D).
  repeat split; assumption.
Defined.

(** C7: in ["IDLE"] every [select_product] call raises "Insert coins before
    selecting item"; nothing is printed and the machine, its inventory
    included, is left as it was. *)
Theorem select_product_idle (code : Z) (vm : t) :
  state vm = "IDLE" ->
  select_product code vm = (inl InvalidStateSelect, vm, []).
Proof.
  intros H. apply select_product_guard. rewrite H. discriminate.
Qed.

Lemma select_product_idle_witness :
  state loaded = "IDLE" /\
  select_product 101 loaded = (inl InvalidStateSelect, loaded, []).
Proof.
  assert (H : state loaded = "IDLE") by reflexivity.
  split; [exact H|exact (select_product_idle 101 loaded H)].
Defined.

(** C10: in ["HAS_MONEY"], selecting a code that no shelf has prints the
    "Invalid shelf code" error and changes nothing but the transaction: the
    inventory after the call is the inventory before it, and the controller
    is reset. *)
Theorem select_product_unknown_code (code : Z) (vm : t) :
  state vm = "HAS_MONEY" ->
  no_shelf_has_code code (inventory vm) ->
  select_product code vm = (inr tt, idle (inventory vm), [Error InvalidShelfCode]) /\
  inventory (Py.after (select_product code vm)) = inventory vm.
Proof.
  intros H N. apply find_no_shelf in N.
  rewrite (select_product_has_money code vm H), N. split; reflexivity.
Qed.

Lemma select_product_unknown_code_witness :
  state (funded [TEN]) = "HAS_MONEY" /\
  no_shelf_has_code 999 (inventory (funded [TEN])) /\
  inventory (Py.after (select_product 999 (funded [TEN])))
  = inventory (funded [TEN]).
Proof.
  assert (H : state (funded [TEN]) = "HAS_MONEY") by reflexivity.
  assert (N : no_shelf_has_code 999 (inventory (funded [TEN])))
    by (apply find_no_shelf; reflexivity).
  split; [exact H|]. split; [exact N|].
  exact (proj2 (select_product_unknown_code 999 (funded [TEN]) H N)).
Defined.

(** C8: in every controller state reachable from [VendingMachine()] by calls
    of [insert_coin] and [select_product] (and of [load_items] and [reset])
    the state field is ["IDLE"] or ["HAS_MONEY"], and in ["IDLE"] there are
    no inserted coins and no selected code. *)
Theorem reachable_state_invariant (vm : t) :
  reachable vm ->
  (state vm = "IDLE" \/ state vm = "HAS_MONEY") /\
  (state vm = "IDLE" -> inserted_coins vm = [] /\ selected_code vm = None).
Proof. exact (reachable_well_formed vm). Qed.

Lemma run_calls_reachable (cs : list call) (vm : t) :
  reachable vm -> reachable (run_calls cs vm).
Proof.
  revert vm. induction cs as [|c cs IH]; intros vm R; [exact R|].
  exact (IH _ (reachable_call vm c R)).
Defined.

Lemma funded_reachable (coins : list Coin) : reachable (funded coins).
Proof.
  exact (run_calls_reachable _ _ (run_calls_reachable _ _ reachable_init)).
Defined.

Lemma reachable_state_invariant_witness :
  let vm := run_calls [SelectProduct 100] (funded [TEN; FIVE]) in
  reachable vm /\
  (state vm = "IDLE" \/ state vm = "HAS_MONEY") /\
  (state vm = "IDLE" -> inserted_coins vm = [] /\ selected_code vm = None).
Proof.
  intros vm.
  pose proof (run_calls_reachable [SelectProduct 100] _
                (funded_reachable [TEN; FIVE])) as R.
  split; [exact R|exact (reachable_state_invariant vm R)].
Defined.

(** C9: from every reachable controller state [insert_coin] returns
    normally: it prints the coin, appends it to the inserted coins and sets
    the state to ["HAS_MONEY"], touching nothing else, so its "Can't insert
    coins in current state" branch is never taken. *)
Theorem insert_coin_never_fails (coin : Coin) (vm : t) :
  reachable vm ->
  insert_coin coin vm =
  (inr tt,
   {| state := "HAS_MONEY";
      inventory := inventory vm;
      inserted_coins := inserted_coins vm ++ [coin];
      selected_code := selected_code vm |},
   [CoinInserted coin]) /\
  Py.result (insert_coin coin vm) <> inl InvalidStateInsert.
Proof.
  intros R. destruct (reachable_well_formed vm R) as [S _].
  rewrite (insert_coin_accepts coin vm S). split; [reflexivity|discriminate].
Qed.

Lemma insert_coin_never_fails_witness :
  reachable (funded [TEN]) /\
  Py.result (insert_coin FIVE (funded [TEN])) = inr tt /\
  inserted_coins (Py.after (insert_coin FIVE (funded [TEN]))) = [TEN; FIVE] /\
  state (Py.after (insert_coin FIVE (funded [TEN]))) = "HAS_MONEY".
Proof.
  pose proof (funded_reachable [TEN]) as R.
  destruct (insert_coin_never_fails FIVE (funded [TEN]) R) as [E _].
  split; [exact R|]. rewrite E. repeat split.
Defined.

End Controller.

(** * Further properties of the code *)

(** ** The inventory: construction, stocking, queries *)

Section InventoryMore.

Lemma range_nonpositive (n : Z) : n <= 0 -> range n = [].
Proof.
  intros H. unfold range. replace (Z.to_nat n) with O by lia. reflexivity.
Qed.

Lemma in_range (n i : Z) : In i (range n) <-> 0 <= i < n.
Proof.
  unfold range. rewrite in_map_iff. split.
  - intros [k [<- K]]. apply in_seq in K. lia.
  - intros H. exists (Z.to_nat i). split; [lia|]. apply in_seq. lia.
Qed.

Lemma range_NoDup (n : Z) : NoDup (map (fun i => 100 + i) (range n)).
Proof.
  unfold range. rewrite map_map.
  generalize (seq_NoDup (Z.to_nat n) 0). generalize (seq 0 (Z.to_nat n)).
  induction 1 as [|k l N D IH]; cbn [map]; constructor; [|exact IH].
  intros I. apply in_map_iff in I. destruct I as [k' [E I]].
  assert (k' = k) by lia. subst k'. exact (N I).
Qed.

(** X1: [Inventory(size)] makes one shelf per index of [range(size)], with the
    codes [100], [101], ... in that order, so no two shelves share a code;
    every shelf is empty with [is_sold_out = False]; for [size <= 0] there
    is no shelf at all. *)
Theorem inventory_init_shelves (size : Z) :
  shelf_codes (Inventory.__init__ size) = map (fun i => 100 + i) (range size) /\
  NoDup (shelf_codes (Inventory.__init__ size)) /\
  List.length (Inventory.shelves (Inventory.__init__ size)) = Z.to_nat size /\
  Forall (fun shelf => ItemShelf.items shelf = [] /\
                       ItemShelf.is_sold_out shelf = false)
         (Inventory.shelves (Inventory.__init__ size)) /\
  (forall code,
     shelf_with_code code (Inventory.__init__ size) <> None
     <-> 100 <= code < 100 + size).
Proof.
  assert (C : shelf_codes (Inventory.__init__ size)
              = map (fun i => 100 + i) (range size)).
  { unfold shelf_codes, Inventory.__init__. cbn [Inventory.shelves].
    rewrite map_map. reflexivity. }
  split; [exact C|]. split; [rewrite C; apply range_NoDup|]. split; [|split].
  - unfold Inventory.__init__, range. cbn [Inventory.shelves].
    rewrite !length_map, length_seq. reflexivity.
  - unfold Inventory.__init__. cbn [Inventory.shelves].
    apply Forall_map, Forall_forall. intros i _. split; reflexivity.
  - intros code. split.
    + intros N. destruct (shelf_with_code code _) as [sh|] eqn:F; [|congruence].
      unfold shelf_with_code in F. apply find_some in F. destruct F as [I E].
      apply Z.eqb_eq in E. unfold Inventory.__init__ in I.
      cbn [Inventory.shelves] in I. apply in_map_iff in I.
      destruct I as [i [<- I]]. apply in_range in I.
      unfold ItemShelf.__init__ in E. cbn [ItemShelf.code] in E. lia.
    + intros H F. apply find_no_shelf in F.
      apply (F (ItemShelf.__init__ code)); [|reflexivity].
      unfold Inventory.__init__. cbn [Inventory.shelves]. apply in_map_iff.
      exists (code - 100). split; [f_equal; lia|]. apply in_range. lia.
Qed.

Lemma update_shelf_codes (c : Z) (f : ItemShelf.t -> ItemShelf.t)
    (l : list ItemShelf.t) :
  (forall s, ItemShelf.code (f s) = ItemShelf.code s) ->
  map ItemShelf.code (update_shelf c f l) = map ItemShelf.code l.
Proof.
  intros K. induction l as [|sh l IH]; [reflexivity|].
  cbn [update_shelf]. destruct (ItemShelf.code sh =? c); cbn [map].
  - rewrite K. reflexivity.
  - rewrite IH. reflexivity.
Qed.

(** [add_item] in one equation, like [get_item_eq]. *)
Lemma inventory_add_item_loop_eq (c : Z) (item : Item.t) (l : list ItemShelf.t) :
  Inventory.add_item_loop c item l =
  match find (fun shelf => ItemShelf.code shelf =? c) l with
  | None => (inl InvalidShelfCode, l, [])
  | Some _ => (inr tt, update_shelf c (restocked [item]) l, [])
  end.
Proof.
  induction l as [|sh l IH]; [reflexivity|].
  cbn [Inventory.add_item_loop find update_shelf].
  destruct (ItemShelf.code sh =? c) eqn:E; [reflexivity|].
  rewrite IH. destruct (find _ l); reflexivity.
Qed.

Lemma inventory_add_item_eq (c : Z) (item : Item.t) (inv : Inventory.t) :
  Inventory.add_item c item inv =
  match shelf_with_code c inv with
  | None => (inl InvalidShelfCode, inv, [])
  | Some _ =>
      (inr tt,
       {| Inventory.shelves := update_shelf c (restocked [item]) (Inventory.shelves inv) |},
       [])
  end.
Proof.
  unfold Inventory.add_item, shelf_with_code. rewrite inventory_add_item_loop_eq.
  destruct inv as [l]. cbn. destruct (find _ l); reflexivity.
Qed.

Lemma add_item_codes (c : Z) (item : Item.t) (inv : Inventory.t) :
  shelf_codes (Py.after (Inventory.add_item c item inv)) = shelf_codes inv.
Proof.
  rewrite inventory_add_item_eq.
  destruct (shelf_with_code c inv); [|reflexivity].
  apply update_shelf_codes. reflexivity.
Qed.

Lemma get_item_codes (c : Z) (inv : Inventory.t) :
  shelf_codes (Py.after (Inventory.get_item c inv)) = shelf_codes inv.
Proof.
  rewrite get_item_eq. destruct (shelf_with_code c inv); [|reflexivity].
  apply update_shelf_codes. apply remove_item_code.
Qed.

(** X2: Neither [add_item] nor [get_item] changes which shelf codes exist or
    their order, whether the call returns or raises. *)
Theorem inventory_codes_fixed (c : Z) (item : Item.t) (inv : Inventory.t) :
  shelf_codes (Py.after (Inventory.add_item c item inv)) = shelf_codes inv /\
  shelf_codes (Py.after (Inventory.get_item c inv)) = shelf_codes inv.
Proof. split; [apply add_item_codes|apply get_item_codes]. Qed.

(** Which shelf a code finds depends on the codes and the position only. *)
Lemma shelf_with_code_none_codes (c : Z) (inv : Inventory.t) :
  shelf_with_code c inv = None <-> ~ In c (shelf_codes inv).
Proof.
  rewrite <- find_no_shelf. unfold no_shelf_has_code, shelf_codes. split.
  - intros H I. apply in_map_iff in I. destruct I as [sh [E I]].
    exact (H sh I E).
  - intros H sh I E. apply H. apply in_map_iff. exists sh. split; assumption.
Qed.

(** X3: [Inventory.add_item] with a code that no shelf has raises "Invalid
    shelf code" and leaves the inventory as it was. *)
Theorem inventory_add_item_unknown (c : Z) (item : Item.t) (inv : Inventory.t) :
  no_shelf_has_code c inv ->
  Inventory.add_item c item inv = (inl InvalidShelfCode, inv, []).
Proof.
  intros N. apply find_no_shelf in N. rewrite inventory_add_item_eq, N.
  reflexivity.
Qed.

Lemma inventory_add_item_unknown_witness :
  no_shelf_has_code 110 (Inventory.__init__ 10) /\
  Inventory.add_item 110 (Item.mk COKE 10) (Inventory.__init__ 10)
  = (inl InvalidShelfCode, Inventory.__init__ 10, []).
Proof.
  assert (N : no_shelf_has_code 110 (Inventory.__init__ 10))
    by (apply find_no_shelf; reflexivity).
  split; [exact N|].
  exact (inventory_add_item_unknown 110 (Item.mk COKE 10) (Inventory.__init__ 10) N).
Defined.

Lemma add_item_shelf_same (c : Z) (item : Item.t) (inv : Inventory.t)
    (sh : ItemShelf.t) :
  shelf_with_code c inv = Some sh ->
  shelf_with_code c (Py.after (Inventory.add_item c item inv))
  = Some (restocked [item] sh).
Proof.
  intros F. rewrite inventory_add_item_eq, F. cbn [Py.after fst snd].
  unfold shelf_with_code in *. cbn [Inventory.shelves].
  rewrite find_update_shelf_same by reflexivity. rewrite F. reflexivity.
Qed.

Lemma add_item_shelf_other (c c' : Z) (item : Item.t) (inv : Inventory.t) :
  c' <> c ->
  shelf_with_code c' (Py.after (Inventory.add_item c item inv))
  = shelf_with_code c' inv.
Proof.
  intros N. rewrite inventory_add_item_eq.
  destruct (shelf_with_code c inv); cbn [Py.after fst snd]; [|reflexivity].
  unfold shelf_with_code. cbn [Inventory.shelves].
  apply find_update_shelf_other; [reflexivity|exact N].
Qed.

(** X4: [Inventory.add_item] with the code of a shelf returns normally and
    prints nothing; that shelf has the item appended at the tail of its
    stock and [is_sold_out = False]; the shelf found under any other code is
    as before. *)
Theorem inventory_add_item_known (c : Z) (item : Item.t) (inv : Inventory.t)
    (sh : ItemShelf.t) :
  shelf_with_code c inv = Some sh ->
  Py.result (Inventory.add_item c item inv) = inr tt /\
  Py.printed (Inventory.add_item c item inv) = [] /\
  shelf_with_code c (Py.after (Inventory.add_item c item inv))
  = Some {| ItemShelf.code := ItemShelf.code sh;
            ItemShelf.items := ItemShelf.items sh ++ [item];
            ItemShelf.is_sold_out := false |} /\
  (forall c', c' <> c ->
     shelf_with_code c' (Py.after (Inventory.add_item c item inv))
     = shelf_with_code c' inv).
Proof.
  intros F. split; [|split; [|split]].
  - rewrite inventory_add_item_eq, F. reflexivity.
  - rewrite inventory_add_item_eq, F. reflexivity.
  - exact (add_item_shelf_same c item inv sh F).
  - intros c' N. exact (add_item_shelf_other c c' item inv N).
Qed.

Lemma inventory_add_item_known_witness :
  shelf_with_code 103 (Inventory.__init__ 10) = Some (ItemShelf.__init__ 103) /\
  shelf_with_code 103
    (Py.after (Inventory.add_item 103 (Item.mk SODA 10) (Inventory.__init__ 10)))
  = Some {| ItemShelf.code := 103;
            ItemShelf.items := [Item.mk SODA 10];
            ItemShelf.is_sold_out := false |} /\
  104 <> 103 /\
  shelf_with_code 104
    (Py.after (Inventory.add_item 103 (Item.mk SODA 10) (Inventory.__init__ 10)))
  = shelf_with_code 104 (Inventory.__init__ 10).
Proof.
  assert (F : shelf_with_code 103 (Inventory.__init__ 10)
              = Some (ItemShelf.__init__ 103)) by reflexivity.
  assert (N : 104 <> 103) by discriminate.
  destruct (inventory_add_item_known 103 (Item.mk SODA 10) (Inventory.__init__ 10)
              (ItemShelf.__init__ 103) F) as (_ & _ & S & O).
  split; [exact F|]. split; [exact S|]. split; [exact N|exact (O 104 N)].
Defined.

(** X5: Stocking and then fetching under the code of a shelf hands out the
    oldest item of that shelf: the head of its previous stock, or the new
    item when the shelf was empty, and then the shelf is empty again with
    [is_sold_out = True]. *)
Theorem add_then_get_item (c : Z) (item : Item.t) (inv : Inventory.t)
    (sh : ItemShelf.t) :
  shelf_with_code c inv = Some sh ->
  Py.result (Inventory.get_item c (Py.after (Inventory.add_item c item inv)))
  = inr (hd item (ItemShelf.items sh)) /\
  (ItemShelf.items sh = [] ->
   shelf_with_code c
     (Py.after (Inventory.get_item c (Py.after (Inventory.add_item c item inv))))
   = Some {| ItemShelf.code := ItemShelf.code sh;
             ItemShelf.items := [];
             ItemShelf.is_sold_out := true |}).
Proof.
  intros F. pose proof (add_item_shelf_same c item inv sh F) as G. split.
  - rewrite get_item_eq, G. cbn [Py.result fst].
    destruct (ItemShelf.items sh) as [|i0 rest] eqn:E.
    + rewrite (remove_item_cons (restocked [item] sh) item []); [reflexivity|].
      cbn. rewrite E. reflexivity.
    + rewrite (remove_item_cons (restocked [item] sh) i0 (rest ++ [item]));
        [reflexivity|].
      cbn. rewrite E. reflexivity.
  - intros E. rewrite (get_item_shelf_same c _ _ G).
    rewrite (remove_item_cons (restocked [item] sh) item []); [reflexivity|].
    cbn. rewrite E. reflexivity.
Qed.

Lemma add_then_get_item_witness :
  shelf_with_code 104 (Inventory.__init__ 10) = Some (ItemShelf.__init__ 104) /\
  Py.result (Inventory.get_item 104
    (Py.after (Inventory.add_item 104 (Item.mk JUICE 20) (Inventory.__init__ 10))))
  = inr (Item.mk JUICE 20) /\
  ItemShelf.items (ItemShelf.__init__ 104) = [] /\
  shelf_with_code 104
    (Py.after (Inventory.get_item 104
       (Py.after (Inventory.add_item 104 (Item.mk JUICE 20) (Inventory.__init__ 10)))))
  = Some (ItemShelf.mk 104 [] true).
Proof.
  assert (F : shelf_with_code 104 (Inventory.__init__ 10)
              = Some (ItemShelf.__init__ 104)) by reflexivity.
  assert (E : ItemShelf.items (ItemShelf.__init__ 104) = []) by reflexivity.
  destruct (add_then_get_item 104 (Item.mk JUICE 20) (Inventory.__init__ 10)
              (ItemShelf.__init__ 104) F) as [G K].
  split; [exact F|]. split; [exact G|]. split; [exact E|exact (K E)].
Defined.

Lemma has_items_true_iff (inv : Inventory.t) :
  Inventory.has_items inv = true <->
  exists shelf, In shelf (Inventory.shelves inv) /\ ItemShelf.items shelf <> [].
Proof.
  unfold Inventory.has_items. rewrite existsb_exists. split.
  - intros [sh [I L]]. exists sh. split; [exact I|].
    destruct (ItemShelf.items sh); [discriminate|discriminate].
  - intros [sh [I N]]. exists sh. split; [exact I|].
    destruct (ItemShelf.items sh); [congruence|reflexivity].
Qed.

(** X6: When [has_items] answers [False], [get_item] raises for every code:
    "Invalid shelf code" or "Item out of stock". *)
Theorem has_items_false_get_item_raises (inv : Inventory.t) (c : Z) :
  Inventory.has_items inv = false ->
  Py.result (Inventory.get_item c inv) = inl InvalidShelfCode \/
  Py.result (Inventory.get_item c inv) = inl OutOfStock.
Proof.
  intros H. rewrite get_item_eq.
  destruct (shelf_with_code c inv) as [sh|] eqn:F; [right|left; reflexivity].
  destruct (ItemShelf.items sh) as [|i0 rest] eqn:E.
  - rewrite (remove_item_empty sh E). reflexivity.
  - assert (T : Inventory.has_items inv = true).
    { apply has_items_true_iff. exists sh. split.
      - unfold shelf_with_code in F. apply find_some in F. exact (proj1 F).
      - rewrite E. discriminate. }
    congruence.
Qed.

Lemma has_items_false_get_item_raises_witness :
  Inventory.has_items (Inventory.__init__ 10) = false /\
  (Py.result (Inventory.get_item 105 (Inventory.__init__ 10)) = inl InvalidShelfCode \/
   Py.result (Inventory.get_item 105 (Inventory.__init__ 10)) = inl OutOfStock).
Proof.
  assert (H : Inventory.has_items (Inventory.__init__ 10) = false) by reflexivity.
  split; [exact H|].
  exact (has_items_false_get_item_raises (Inventory.__init__ 10) 105 H).
Defined.

(** X7: After a successful [add_item], [has_items] answers [True]. *)
Theorem add_item_has_items (c : Z) (item : Item.t) (inv : Inventory.t) :
  Py.result (Inventory.add_item c item inv) = inr tt ->
  Inventory.has_items (Py.after (Inventory.add_item c item inv)) = true.
Proof.
  intros R. destruct (shelf_with_code c inv) as [sh|] eqn:F.
  - apply has_items_true_iff. exists (restocked [item] sh). split.
    + pose proof (add_item_shelf_same c item inv sh F) as G.
      unfold shelf_with_code in G. apply find_some in G. exact (proj1 G).
    + cbn. destruct (ItemShelf.items sh); discriminate.
  - rewrite inventory_add_item_eq, F in R. discriminate.
Qed.

Lemma add_item_has_items_witness :
  Py.result (Inventory.add_item 100 (Item.mk COKE 10) (Inventory.__init__ 10)) = inr tt /\
  Inventory.has_items
    (Py.after (Inventory.add_item 100 (Item.mk COKE 10) (Inventory.__init__ 10)))
  = true.
Proof.
  assert (R : Py.result (Inventory.add_item 100 (Item.mk COKE 10)
                           (Inventory.__init__ 10)) = inr tt) by reflexivity.
  split; [exact R|].
  exact (add_item_has_items 100 (Item.mk COKE 10) (Inventory.__init__ 10) R).
Defined.

Lemma update_shelf_stock (c : Z) (f : ItemShelf.t -> ItemShelf.t)
    (l : list ItemShelf.t) (sh : ItemShelf.t) :
  find (fun shelf => ItemShelf.code shelf =? c) l = Some sh ->
  (list_sum (map (fun shelf => List.length (ItemShelf.items shelf))
               (update_shelf c f l))
   + List.length (ItemShelf.items sh)
   = list_sum (map (fun shelf => List.length (ItemShelf.items shelf)) l)
     + List.length (ItemShelf.items (f sh)))%nat.
Proof.
  induction l as [|s0 l IH]; [discriminate|].
  cbn [find update_shelf]. destruct (ItemShelf.code s0 =? c).
  - intros [= ->]. unfold list_sum. cbn [map fold_right]. lia.
  - intros F. specialize (IH F). unfold list_sum in *. cbn [map fold_right]. lia.
Qed.

(** X8: The stock of the whole inventory is accounted for item by item: a
    successful [add_item] makes it one more, a failed one leaves it; a
    [get_item] that returns an item makes it one less, one that raises
    leaves it. *)
Theorem inventory_stock_accounting (c : Z) (item : Item.t) (inv : Inventory.t) :
  match Py.result (Inventory.add_item c item inv) with
  | inr _ => total_stock (Py.after (Inventory.add_item c item inv))
             = S (total_stock inv)
  | inl _ => total_stock (Py.after (Inventory.add_item c item inv))
             = total_stock inv
  end /\
  match Py.result (Inventory.get_item c inv) with
  | inr _ => S (total_stock (Py.after (Inventory.get_item c inv)))
             = total_stock inv
  | inl _ => total_stock (Py.after (Inventory.get_item c inv))
             = total_stock inv
  end.
Proof.
  split.
  - rewrite inventory_add_item_eq.
    destruct (shelf_with_code c inv) as [sh|] eqn:F; [|reflexivity].
    cbn [Py.result Py.after fst snd]. unfold total_stock. cbn [Inventory.shelves].
    pose proof (update_shelf_stock c (restocked [item]) _ sh F) as U.
    cbn [restocked ItemShelf.items] in U. rewrite length_app in U. cbn in U. lia.
  - rewrite get_item_eq.
    destruct (shelf_with_code c inv) as [sh|] eqn:F; [|reflexivity].
    cbn [Py.result Py.after fst snd]. unfold total_stock. cbn [Inventory.shelves].
    pose proof (update_shelf_stock c
                  (fun s => Py.after (ItemShelf.remove_item s)) _ sh F) as U.
    cbn beta in U.
    destruct (ItemShelf.items sh) as [|i0 rest] eqn:E.
    + rewrite (remove_item_empty sh E) in *. cbn in U |- *. lia.
    + rewrite (remove_item_cons sh i0 rest E) in *. cbn in U |- *. lia.
Qed.

Lemma update_shelf_Forall (P : ItemShelf.t -> Prop) (c : Z)
    (f : ItemShelf.t -> ItemShelf.t) (l : list ItemShelf.t) :
  (forall s, P s -> P (f s)) -> Forall P l -> Forall P (update_shelf c f l).
Proof.
  intros K. induction 1 as [|s0 l H0 H IH]; [constructor|].
  cbn [update_shelf]. destruct (ItemShelf.code s0 =? c); constructor; auto.
Qed.

Lemma add_item_sound (c : Z) (item : Item.t) (inv : Inventory.t) :
  shelves_sound inv -> shelves_sound (Py.after (Inventory.add_item c item inv)).
Proof.
  intros H. rewrite inventory_add_item_eq.
  destruct (shelf_with_code c inv); [|exact H].
  apply update_shelf_Forall; [|exact H]. intros s _ F. discriminate.
Qed.

Lemma get_item_sound (c : Z) (inv : Inventory.t) :
  shelves_sound inv -> shelves_sound (Py.after (Inventory.get_item c inv)).
Proof.
  intros H. rewrite get_item_eq.
  destruct (shelf_with_code c inv); [|exact H].
  apply update_shelf_Forall; [|exact H]. intros s I.
  exact (proj1 (run_shelf_op_iff s RemoveHead I)).
Qed.

End InventoryMore.

(** ** The controller: what the calls do to the inventory and the coins *)

Section ControllerMore.

Import VendingMachine.

Lemma for_each_preserves {S X} (P : S -> Prop) (xs : list X)
    (body : X -> Py S unit) :
  (forall x s, P s -> P (Py.after (body x s))) ->
  forall s, P s -> P (Py.after (Py.for_each xs body s)).
Proof.
  intros B. induction xs as [|x xs IH]; intros s H; [exact H|].
  cbn [Py.for_each]. unfold Py.bind.
  pose proof (B x s H) as Bx.
  destruct (body x s) as [[[e|[]] s1] out1]; cbn [Py.after fst snd] in *.
  - exact Bx.
  - pose proof (IH s1 Bx) as I.
    destruct (Py.for_each xs body s1) as [[r s2] out2]. exact I.
Qed.

Lemma on_inventory_after {A} (m : Py Inventory.t A) (vm : t) :
  inventory (Py.after (on_inventory m vm)) = Py.after (m (inventory vm)).
Proof.
  unfold on_inventory. destruct (m (inventory vm)) as [[r inv'] out].
  reflexivity.
Qed.

Lemma insert_coin_inventory (coin : Coin) (vm : t) :
  inventory (Py.after (insert_coin coin vm)) = inventory vm.
Proof.
  unfold insert_coin, Py.bind at 1, Py.get.
  destruct (negb (existsb (String.eqb (state vm)) ["IDLE"; "HAS_MONEY"]));
    reflexivity.
Qed.

(** In ["HAS_MONEY"] the machine after [select_product] is the reset
    machine over the inventory that [get_item] left. *)
Lemma select_product_after (code : Z) (vm : t) :
  state vm = "HAS_MONEY" ->
  Py.after (select_product code vm)
  = idle (Py.after (Inventory.get_item code (inventory vm))).
Proof.
  intros H. rewrite (select_product_has_money code vm H), get_item_eq.
  destruct (shelf_with_code code (inventory vm)) as [sh|]; [|reflexivity].
  destruct (Py.result (ItemShelf.remove_item sh)) as [e|item]; [reflexivity|].
  cbv zeta. destruct (_ <? _); reflexivity.
Qed.

(** The controller reaches into the inventory through [add_item] and
    [get_item] only: what those two keep, every call keeps. *)
Lemma run_call_inventory (P : Inventory.t -> Prop) :
  (forall c item inv, P inv -> P (Py.after (Inventory.add_item c item inv))) ->
  (forall c inv, P inv -> P (Py.after (Inventory.get_item c inv))) ->
  forall c vm, P (inventory vm) -> P (inventory (Py.after (run_call c vm))).
Proof.
  intros A G c vm H. destruct c as [coin|code| |]; cbn [run_call].
  - rewrite insert_coin_inventory. exact H.
  - destruct (String.eqb_spec (state vm) "HAS_MONEY") as [E|N].
    + rewrite (select_product_after code vm E). apply G. exact H.
    + rewrite (select_product_guard code vm N). exact H.
  - revert H. generalize vm. unfold load_items.
    apply (for_each_preserves (fun vm => P (inventory vm))). intros i vm1.
    apply (for_each_preserves (fun vm => P (inventory vm))). intros _ vm2 H.
    rewrite on_inventory_after. apply A. exact H.
  - exact H.
Qed.

Lemma reachable_inventory (P : Inventory.t -> Prop) :
  P (Inventory.__init__ 10) ->
  (forall c item inv, P inv -> P (Py.after (Inventory.add_item c item inv))) ->
  (forall c inv, P inv -> P (Py.after (Inventory.get_item c inv))) ->
  forall vm, reachable vm -> P (inventory vm).
Proof.
  intros I A G vm R. induction R as [|vm c R IH]; [exact I|].
  apply run_call_inventory; assumption.
Qed.

Lemma reachable_shelf_codes (vm : t) :
  reachable vm ->
  shelf_codes (inventory vm) = [100; 101; 102; 103; 104; 105; 106; 107; 108; 109].
Proof.
  apply (reachable_inventory (fun inv => shelf_codes inv = _)).
  - reflexivity.
  - intros c item inv H. rewrite add_item_codes. exact H.
  - intros c inv H. rewrite get_item_codes. exact H.
Qed.

(** X9: In every reachable state of the machine the shelves are the ten of
    [Inventory(10)], with the codes 100 to 109 in order: a code finds a shelf
    if and only if it lies in that range. *)
Theorem reachable_codes (vm : t) :
  reachable vm ->
  shelf_codes (inventory vm) = map (fun i => 100 + i) (range 10) /\
  (forall code,
     shelf_with_code code (inventory vm) <> None <-> 100 <= code <= 109).
Proof.
  intros R. pose proof (reachable_shelf_codes vm R) as C.
  split; [exact C|]. intros code.
  rewrite shelf_with_code_none_codes, C. cbn [In]. split.
  - intros H.
    destruct (Z_le_gt_dec 100 code) as [L|L], (Z_le_gt_dec code 109) as [U|U];
      try lia; exfalso; apply H; intros [E|[E|[E|[E|[E|[E|[E|[E|[E|[E|[]]]]]]]]]]];
      lia.
  - intros H N. apply N. lia.
Qed.

Lemma reachable_codes_witness :
  reachable (funded [TEN]) /\
  (shelf_with_code 109 (inventory (funded [TEN])) <> None <-> 100 <= 109 <= 109).
Proof.
  pose proof (funded_reachable [TEN]) as R.
  split; [exact R|].
  exact (proj2 (reachable_codes (funded [TEN]) R) 109).
Defined.

(** X10: In every reachable state of the machine a shelf with [is_sold_out =
    True] is empty: the display never shows a sold-out shelf with items. *)
Theorem reachable_shelves_sound (vm : t) (shelf : ItemShelf.t) :
  reachable vm ->
  In shelf (Inventory.shelves (inventory vm)) ->
  ItemShelf.is_sold_out shelf = true ->
  ItemShelf.items shelf = [].
Proof.
  intros R I. revert shelf I.
  apply (proj1 (Forall_forall sold_out_only_if_empty _)).
  apply (reachable_inventory shelves_sound); [| | |exact R].
  - apply Forall_forall. intros sh I F.
    unfold Inventory.__init__ in I. cbn [Inventory.shelves] in I.
    apply in_map_iff in I. destruct I as [i [<- _]]. discriminate.
  - intros c item inv. apply add_item_sound.
  - intros c inv. apply get_item_sound.
Qed.

Lemma reachable_shelves_sound_witness :
  let vm := run_calls [InsertCoin TEN; SelectProduct 100] VendingMachine.__init__ in
  let shelf := ItemShelf.mk 100 [] true in
  reachable vm /\
  In shelf (Inventory.shelves (inventory vm)) /\
  ItemShelf.is_sold_out shelf = true /\
  ItemShelf.items shelf = [].
Proof.
  intros vm shelf.
  pose proof (run_calls_reachable [InsertCoin TEN; SelectProduct 100] _
                reachable_init) as R.
  assert (I : In shelf (Inventory.shelves (inventory vm)))
    by (left; reflexivity).
  assert (F : ItemShelf.is_sold_out shelf = true) by reflexivity.
  split; [exact R|]. split; [exact I|]. split; [exact F|].
  exact (reachable_shelves_sound vm shelf R I F).
Defined.

Lemma snoc3 {A} (l : list A) (x : A) :
  l ++ [x; x; x] = ((l ++ [x]) ++ [x]) ++ [x].
Proof. rewrite <- !app_assoc. reflexivity. Qed.

Lemma find_map_shelf (c : Z) (f : ItemShelf.t -> ItemShelf.t)
    (l : list ItemShelf.t) :
  (forall s, ItemShelf.code (f s) = ItemShelf.code s) ->
  find (fun shelf => ItemShelf.code shelf =? c) (map f l)
  = option_map f (find (fun shelf => ItemShelf.code shelf =? c) l).
Proof.
  intros K. induction l as [|sh l IH]; [reflexivity|].
  cbn [map find]. rewrite K. destruct (ItemShelf.code sh =? c); [reflexivity|].
  exact IH.
Qed.

(** [load_items] over shelves with the codes 100 to 109. *)
Lemma load_items_eq (vm : t) :
  shelf_codes (inventory vm) = [100; 101; 102; 103; 104; 105; 106; 107; 108; 109] ->
  load_items vm =
  (inr tt,
   set_inventory
     {| Inventory.shelves := map load_shelf (Inventory.shelves (inventory vm)) |} vm,
   []).
Proof.
  destruct vm as [st [l] coins sel]. unfold shelf_codes.
  cbn [inventory Inventory.shelves]. intros C.
  do 10 (destruct l as [|[? ? ?] l]; [discriminate C|]).
  destruct l; [|discriminate C].
  cbn [map ItemShelf.code] in C. injection C as -> -> -> -> -> -> -> -> -> ->.
  unfold load_shelf, restocked.
  cbn [map ItemShelf.code ItemShelf.items repeat]. rewrite !snoc3.
  vm_compute. reflexivity.
Qed.

(** X11: From every reachable state [load_items] returns normally and prints
    nothing; every one of the ten shelves gets three items of its kind
    appended behind its stock and [is_sold_out = False]; the state, the
    inserted coins and the selected code are as before. *)
Theorem load_items_restocks (vm : t) :
  reachable vm ->
  load_items vm =
  (inr tt,
   {| state := state vm;
      inventory :=
        {| Inventory.shelves := map load_shelf (Inventory.shelves (inventory vm)) |};
      inserted_coins := inserted_coins vm;
      selected_code := selected_code vm |},
   []) /\
  (forall code sh,
     shelf_with_code code (inventory vm) = Some sh ->
     shelf_with_code code (inventory (Py.after (load_items vm)))
     = Some {| ItemShelf.code := ItemShelf.code sh;
               ItemShelf.items :=
                 ItemShelf.items sh
                 ++ repeat (demo_item (ItemShelf.code sh - 100)) 3;
               ItemShelf.is_sold_out := false |}).
Proof.
  intros R. pose proof (load_items_eq vm (reachable_shelf_codes vm R)) as E.
  split; [exact E|]. intros code sh F. rewrite E. cbn [Py.after fst snd].
  unfold shelf_with_code in *. cbn [set_inventory inventory Inventory.shelves].
  rewrite find_map_shelf by reflexivity. rewrite F. reflexivity.
Qed.

Lemma loaded_reachable : reachable loaded.
Proof. exact (run_calls_reachable [LoadItems] _ reachable_init). Defined.

Lemma load_items_restocks_witness :
  reachable loaded /\
  shelf_with_code 102 (inventory loaded)
  = Some (ItemShelf.mk 102 (repeat (Item.mk JUICE 20) 3) false) /\
  shelf_with_code 102 (inventory (Py.after (load_items loaded)))
  = Some (ItemShelf.mk 102 (repeat (Item.mk JUICE 20) 6) false).
Proof.
  pose proof loaded_reachable as R.
  assert (F : shelf_with_code 102 (inventory loaded)
              = Some (ItemShelf.mk 102 (repeat (Item.mk JUICE 20) 3) false))
    by reflexivity.
  split; [exact R|]. split; [exact F|].
  exact (proj2 (load_items_restocks loaded R) 102 _ F).
Defined.

Lemma coins_value_positive (coins : list Coin) :
  coins <> [] -> 1 <= coins_value coins.
Proof.
  assert (N : forall l, 0 <= coins_value l).
  { induction l as [|c l IH]; unfold coins_value; cbn [fold_right]; [lia|].
    fold (coins_value l). destruct c; cbn [Coin_value]; lia. }
  destruct coins as [|c l]; [congruence|]. intros _.
  unfold coins_value; cbn [fold_right]. fold (coins_value l).
  specialize (N l). destruct c; cbn [Coin_value]; lia.
Qed.

(** X12: In every reachable state of the machine no code is selected, the state
    is ["IDLE"] exactly when no coin is inserted, and in ["HAS_MONEY"] the
    inserted coins are worth at least 1. *)
Theorem reachable_transaction (vm : t) :
  reachable vm ->
  selected_code vm = None /\
  (state vm = "IDLE" <-> inserted_coins vm = []) /\
  (state vm = "HAS_MONEY" -> 1 <= total (inserted_coins vm)).
Proof.
  assert (K : forall l, l <> [] -> 1 <= total l).
  { intros l N. rewrite <- (app_nil_l l), total_app.
    pose proof (coins_value_positive l N). unfold total. cbn [fold_left]. lia. }
  assert (Q : reachable vm ->
              selected_code vm = None /\
              (state vm = "IDLE" <-> inserted_coins vm = [])).
  { induction 1 as [|vm c R IH].
    - split; [reflexivity|]. split; reflexivity.
    - destruct IH as [S I]. pose proof (reachable_well_formed vm R) as [W _].
      destruct c as [coin|code| |]; cbn [run_call].
      + rewrite (insert_coin_accepts coin vm W). cbn. split; [exact S|].
        split; [discriminate|]. destruct (inserted_coins vm); discriminate.
      + destruct (String.eqb_spec (state vm) "HAS_MONEY") as [E|N].
        * rewrite (select_product_after code vm E). cbn. tauto.
        * rewrite (select_product_guard code vm N). tauto.
      + destruct (load_items_same_transaction vm) as (L1 & L2 & L3).
        rewrite L1, L2, L3. tauto.
      + cbn. tauto. }
  intros R. destruct (Q R) as [S I]. split; [exact S|]. split; [exact I|].
  intros H. apply K. intros E. apply I in E. rewrite H in E. discriminate.
Qed.

Lemma reachable_transaction_witness :
  reachable (funded [TWO; ONE]) /\
  selected_code (funded [TWO; ONE]) = None /\
  state (funded [TWO; ONE]) = "HAS_MONEY" /\
  1 <= total (inserted_coins (funded [TWO; ONE])).
Proof.
  pose proof (funded_reachable [TWO; ONE]) as R.
  assert (H : state (funded [TWO; ONE]) = "HAS_MONEY") by reflexivity.
  destruct (reachable_transaction (funded [TWO; ONE]) R) as (S & _ & T).
  split; [exact R|]. split; [exact S|]. split; [exact H|exact (T H)].
Defined.

(** X13: From a reachable state, inserting the coins [coins] one after the other
    appends them, in order, to the inserted coins; the total grows by the
    sum of their values; the inventory is untouched; and after at least one
    coin the state is ["HAS_MONEY"]. *)
Theorem insert_coins_accumulate (coins : list Coin) (vm : t) :
  reachable vm ->
  inserted_coins (run_calls (map InsertCoin coins) vm)
  = inserted_coins vm ++ coins /\
  total (inserted_coins (run_calls (map InsertCoin coins) vm))
  = total (inserted_coins vm) + coins_value coins /\
  inventory (run_calls (map InsertCoin coins) vm) = inventory vm /\
  (coins <> [] -> state (run_calls (map InsertCoin coins) vm) = "HAS_MONEY").
Proof.
  intros R.
  assert (A : inserted_coins (run_calls (map InsertCoin coins) vm)
              = inserted_coins vm ++ coins /\
              inventory (run_calls (map InsertCoin coins) vm) = inventory vm /\
              (coins <> [] ->
               state (run_calls (map InsertCoin coins) vm) = "HAS_MONEY")).
  { revert vm R. induction coins as [|coin coins IH]; intros vm R.
    - cbn. rewrite app_nil_r. repeat split. congruence.
    - pose proof (reachable_well_formed vm R) as [W _].
      pose proof (reachable_call vm (InsertCoin coin) R) as R'.
      destruct (IH _ R') as (I1 & I2 & I3).
      cbn [map run_calls fold_left] in *. unfold run_calls in *.
      cbn [run_call] in *. rewrite (insert_coin_accepts coin vm W) in *.
      cbn [Py.after fst snd inserted_coins inventory state] in *.
      rewrite I1, I2, <- app_assoc. repeat split. intros _.
      destruct coins as [|c2 coins]; [reflexivity|]. apply I3. discriminate. }
  destruct A as (A1 & A2 & A3). rewrite A1, total_app. repeat split; assumption.
Qed.

Lemma insert_coins_accumulate_witness :
  reachable loaded /\
  total (inserted_coins (run_calls (map InsertCoin [TEN; FIVE]) loaded)) = 15 /\
  [TEN; FIVE] <> [] /\
  state (run_calls (map InsertCoin [TEN; FIVE]) loaded) = "HAS_MONEY".
Proof.
  pose proof loaded_reachable as R.
  assert (N : [TEN; FIVE] <> []) by discriminate.
  destruct (insert_coins_accumulate [TEN; FIVE] loaded R) as (_ & T & _ & S).
  split; [exact R|]. split; [exact T|]. split; [exact N|exact (S N)].
Defined.

(** X14: [select_product] touches no shelf but the one selected: under any other
    code the same shelf, with the same stock and flag, is found after the
    call as before it, in every state of the machine. *)
Theorem select_product_frame (code code' : Z) (vm : t) :
  code' <> code ->
  shelf_with_code code' (inventory (Py.after (select_product code vm)))
  = shelf_with_code code' (inventory vm).
Proof.
  intros N. destruct (String.eqb_spec (state vm) "HAS_MONEY") as [E|G].
  - rewrite (select_product_after code vm E). cbn [idle inventory].
    exact (get_item_shelf_other code code' (inventory vm) N).
  - rewrite (select_product_guard code vm G). reflexivity.
Qed.

Lemma select_product_frame_witness :
  101 <> 100 /\
  shelf_with_code 101 (inventory (Py.after (select_product 100 (funded [TEN]))))
  = shelf_with_code 101 (inventory (funded [TEN])).
Proof.
  assert (N : 101 <> 100) by discriminate.
  split; [exact N|exact (select_product_frame 100 101 (funded [TEN]) N)].
Defined.

(** X15: In ["HAS_MONEY"], selecting an empty shelf prints the "Item out of
    stock" error and nothing else, resets the controller, and leaves that
    shelf empty with [is_sold_out = True]. *)
Theorem select_product_out_of_stock (code : Z) (vm : t) (sh : ItemShelf.t) :
  state vm = "HAS_MONEY" ->
  shelf_with_code code (inventory vm) = Some sh ->
  ItemShelf.items sh = [] ->
  Py.result (select_product code vm) = inr tt /\
  Py.printed (select_product code vm) = [Error OutOfStock] /\
  state (Py.after (select_product code vm)) = "IDLE" /\
  inserted_coins (Py.after (select_product code vm)) = [] /\
  shelf_with_code code (inventory (Py.after (select_product code vm)))
  = Some {| ItemShelf.code := ItemShelf.code sh;
            ItemShelf.items := [];
            ItemShelf.is_sold_out := true |}.
Proof.
  intros H F E.
  assert (G : shelf_with_code code (inventory (Py.after (select_product code vm)))
              = Some {| ItemShelf.code := ItemShelf.code sh;
                        ItemShelf.items := [];
                        ItemShelf.is_sold_out := true |}).
  { rewrite (select_product_after code vm H). cbn [idle inventory].
    rewrite (get_item_shelf_same code (inventory vm) sh F).
    rewrite (remove_item_empty sh E). reflexivity. }
  rewrite G. rewrite (select_product_has_money code vm H), F.
  rewrite (remove_item_empty sh E). cbn. repeat split.
Qed.

Lemma select_product_out_of_stock_witness :
  let vm := run_calls [InsertCoin TEN] VendingMachine.__init__ in
  state vm = "HAS_MONEY" /\
  shelf_with_code 101 (inventory vm) = Some (ItemShelf.__init__ 101) /\
  ItemShelf.items (ItemShelf.__init__ 101) = [] /\
  Py.printed (select_product 101 vm) = [Error OutOfStock] /\
  state (Py.after (select_product 101 vm)) = "IDLE".
Proof.
  intros vm.
  assert (H : state vm = "HAS_MONEY") by reflexivity.
  assert (F : shelf_with_code 101 (inventory vm) = Some (ItemShelf.__init__ 101))
    by reflexivity.
  assert (E : ItemShelf.items (ItemShelf.__init__ 101) = []) by reflexivity.
  destruct (select_product_out_of_stock 101 vm (ItemShelf.__init__ 101) H F E)
    as (_ & P & S & _).
  repeat split; assumption.
Defined.

(** X16: From a reachable state, a [select_product] call that directly follows
    another one always raises "Insert coins before selecting item" and
    changes nothing: one insertion of coins pays for one selection. *)
Theorem select_product_twice (code1 code2 : Z) (vm : t) :
  reachable vm ->
  select_product code2 (Py.after (select_product code1 vm))
  = (inl InvalidStateSelect, Py.after (select_product code1 vm), []).
Proof.
  intros R. apply select_product_guard.
  destruct (reachable_well_formed vm R) as [[W|W] _].
  - rewrite (select_product_guard code1 vm) by (rewrite W; discriminate).
    cbn [Py.after fst snd]. rewrite W. discriminate.
  - rewrite (select_product_after code1 vm W). discriminate.
Qed.

Lemma select_product_twice_witness :
  reachable (funded [TEN; TEN]) /\
  Py.result (select_product 100 (Py.after (select_product 100 (funded [TEN; TEN]))))
  = inl InvalidStateSelect.
Proof.
  pose proof (funded_reachable [TEN; TEN]) as R.
  split; [exact R|].
  rewrite (select_product_twice 100 100 (funded [TEN; TEN]) R). reflexivity.
Defined.

(** X17: Whatever the state and the code, one [select_product] call takes at
    most one item out of the inventory and never puts one in, and one
    [insert_coin] call leaves the inventory alone. *)
Theorem select_product_stock (code : Z) (coin : Coin) (vm : t) :
  (total_stock (inventory (Py.after (select_product code vm)))
   = total_stock (inventory vm) \/
   S (total_stock (inventory (Py.after (select_product code vm))))
   = total_stock (inventory vm)) /\
  inventory (Py.after (insert_coin coin vm)) = inventory vm.
Proof.
  split; [|apply insert_coin_inventory].
  destruct (String.eqb_spec (state vm) "HAS_MONEY") as [E|G].
  - rewrite (select_product_after code vm E). cbn [idle inventory].
    pose proof (get_item_eq code (inventory vm)) as Q.
    destruct (shelf_with_code code (inventory vm)) as [sh|] eqn:F.
    + rewrite Q. cbn [Py.after fst snd]. unfold total_stock.
      cbn [Inventory.shelves].
      pose proof (update_shelf_stock code
                    (fun s => Py.after (ItemShelf.remove_item s)) _ sh F) as U.
      cbn beta in U. destruct (ItemShelf.items sh) as [|i0 rest] eqn:I.
      * rewrite (remove_item_empty sh I) in U.
        cbn [Py.after fst snd ItemShelf.items List.length] in U. left. lia.
      * rewrite (remove_item_cons sh i0 rest I) in U.
        cbn [Py.after fst snd ItemShelf.items List.length] in U. right. lia.
    + rewrite Q. left. reflexivity.
  - rewrite (select_product_guard code vm G). left. reflexivity.
Qed.



End ControllerMore.

Lemma insert_coin_rejects_witness :
  let vm := VendingMachine.set_state "DISPENSING" loaded in
  VendingMachine.state vm <> "IDLE" /\
  VendingMachine.state vm <> "HAS_MONEY" /\
  VendingMachine.insert_coin TEN vm = (inl InvalidStateInsert, vm, []).
Proof.
  intros vm.
  assert (N1 : VendingMachine.state vm <> "IDLE") by discriminate.
  assert (N2 : VendingMachine.state vm <> "HAS_MONEY") by discriminate.
  split; [exact N1|]. split; [exact N2|].
  exact (insert_coin_rejects TEN vm N1 N2).
Defined.
